(** * Session management of the chatbot front end

    A shallow embedding of [session_management.js] (class [SessionManager])
    and the verification of its session life cycle: identifier generation,
    the activity state machine with its inactivity timer, the cleanup
    procedure and the upload and chat calls.

    The browser is part of the state: [sessionStorage] is a finite map from
    keys to strings, the pending timeouts are a finite map from timer handles
    to deadlines on a millisecond clock, [fetch] appends to a log of requests
    and its outcome (a response or a rejection) is an argument of the method
    that awaits it. *)

From Stdlib Require Import ZArith QArith Qround String Ascii List Bool Lia.
From stdpp Require Import gmap strings.
Import ListNotations.

Close Scope Q_scope.
Local Open Scope string_scope.
Local Open Scope list_scope.
Local Open Scope Z_scope.

(** ** JavaScript values used by the class *)

(** [!v] on a value of type [string | null]: null and the empty string are
    falsy, every other string is truthy. *)
Definition truthy (v : option string) : bool :=
  match v with
  | None => false
  | Some s => negb (String.eqb s "")
  end.

(** An [Error] object, by its message. *)
Record js_error := Error { error_message : string }.

(** ToInt32 of a number that is an exact rational: truncate towards zero and
    wrap to the signed 32-bit range. *)
Definition Qtruncate (q : Q) : Z :=
  if Qle_bool 0 q then Qfloor q else Qceiling q.

Definition wrap_int32 (z : Z) : Z :=
  (z + 2 ^ 31) mod 2 ^ 32 - 2 ^ 31.

Definition ToInt32 (q : Q) : Z := wrap_int32 (Qtruncate q).

(** [n.toString(16)] for an integer [n]. *)
Definition hex_digit (d : Z) : ascii :=
  match String.get (Z.to_nat d) "0123456789abcdef" with
  | Some c => c
  | None => "0"%char
  end.

Fixpoint hex_digits (fuel : nat) (n : Z) (acc : string) : string :=
  if n <? 16 then String (hex_digit n) acc
  else match fuel with
       | O => acc
       | S fuel' => hex_digits fuel' (n / 16) (String (hex_digit (n mod 16)) acc)
       end.

Definition toString16 (n : Z) : string :=
  if n <? 0 then String "-"%char (hex_digits (Z.to_nat (- n)) (- n) "")
  else hex_digits (Z.to_nat n) n "".

(** ** Identifier generation *)

(** [Math.random] is a sequence of numbers; [draws] of them have been
    consumed.  A double in [0, 1) is the rational it denotes, and its product
    with 16 is exact. *)
Section Generation.

Variable random : nat -> Q.

(** The callback of [replace]: [r = Math.random() * 16 | 0],
    [v = c == 'x' ? r : (r & 0x3 | 0x8)], [v.toString(16)]. *)
Definition replacement (c : ascii) (x : Q) : string :=
  let r := Z.lor (ToInt32 (x * 16)%Q) 0 in
  let v := if Ascii.eqb c "x" then r else Z.lor (Z.land r 3) 8 in
  toString16 v.

(** [template.replace(/[xy]/g, callback)]: every x or y is replaced, left to
    right, by what the callback returns for it; one draw per match. *)
Fixpoint replace_xy (template : string) (draws : nat) : string * nat :=
  match template with
  | EmptyString => (EmptyString, draws)
  | String c rest =>
      if Ascii.eqb c "x" || Ascii.eqb c "y" then
        let piece := replacement c (random draws) in
        let '(out, n) := replace_xy rest (S draws) in
        (piece +:+ out, n)
      else
        let '(out, n) := replace_xy rest draws in
        (String c out, n)
  end.

Definition uuid_template : string := "xxxxxxxx-xxxx-4xxx-yxxx-xxxxxxxxxxxx".

Definition generateSessionId (draws : nat) : string * nat :=
  replace_xy uuid_template draws.

End Generation.

(** ** The browser around the manager *)

(** The five input events the manager listens to on [document]. *)
Inductive activity_event := mousedown | mousemove | keypress | scroll | touchstart.

Definition File := string.

(** The body of a request: [JSON.stringify] of an object whose fields are
    strings or null, a [FormData], or none (GET). *)
Inductive request_body :=
  | JsonBody (fields : list (string * option string))
  | FormBody (fields : list (string * File))
  | NoBody.

Record request := Request {
  url : string;
  method : string;
  headers : list (string * string);
  body : request_body
}.

(** A response; [B] is the type of what [response.json()] parses, and
    [json] is a rejection when the body does not parse. *)
Record response (B : Type) := Response {
  status : Z;
  statusText : string;
  json : js_error + B
}.
Arguments Response {B}.
Arguments status {B}.
Arguments statusText {B}.
Arguments json {B}.

(** [response.ok]: the status is in the range 200-299. *)
Definition ok {B} (r : response B) : bool :=
  (200 <=? status r) && (status r <=? 299).

(** How the promise of [fetch] settles. *)
Inductive fetch_outcome (B : Type) :=
  | Fulfilled (r : response B)
  | Rejected (e : js_error).
Arguments Fulfilled {B}.
Arguments Rejected {B}.

(** What the manager does to the outside, in order. *)
Inductive effect :=
  | Fetch (r : request)
  | ConsoleLog (text : string) (arg : option string)
  | ConsoleError (text : string) (arg : string)
  | DispatchEvent (type : string) (detail_sessionId : option string).

(** The fields of the manager, then the browser state it works on:
    [timeouts] maps the handle of each pending timeout of the manager to
    its deadline (the only callback ever scheduled is the one of
    [startInactivityTimer]); handles are positive integers, so a handle is
    truthy. *)
Record State := mkState {
  sessionId : option string;
  isActive : bool;
  inactivityTimer : option positive;
  sessionStorage : gmap string string;
  clock : Z;
  timeouts : gmap positive Z;
  next_handle : positive;
  draws : nat;
  effects : list effect
}.

Definition with_sessionId v s :=
  mkState v (isActive s) (inactivityTimer s) (sessionStorage s) (clock s)
    (timeouts s) (next_handle s) (draws s) (effects s).
Definition with_isActive v s :=
  mkState (sessionId s) v (inactivityTimer s) (sessionStorage s) (clock s)
    (timeouts s) (next_handle s) (draws s) (effects s).
Definition with_inactivityTimer v s :=
  mkState (sessionId s) (isActive s) v (sessionStorage s) (clock s)
    (timeouts s) (next_handle s) (draws s) (effects s).
Definition with_sessionStorage v s :=
  mkState (sessionId s) (isActive s) (inactivityTimer s) v (clock s)
    (timeouts s) (next_handle s) (draws s) (effects s).
Definition with_clock v s :=
  mkState (sessionId s) (isActive s) (inactivityTimer s) (sessionStorage s) v
    (timeouts s) (next_handle s) (draws s) (effects s).
Definition with_timeouts v s :=
  mkState (sessionId s) (isActive s) (inactivityTimer s) (sessionStorage s)
    (clock s) v (next_handle s) (draws s) (effects s).
Definition with_next_handle v s :=
  mkState (sessionId s) (isActive s) (inactivityTimer s) (sessionStorage s)
    (clock s) (timeouts s) v (draws s) (effects s).
Definition with_draws v s :=
  mkState (sessionId s) (isActive s) (inactivityTimer s) (sessionStorage s)
    (clock s) (timeouts s) (next_handle s) v (effects s).
Definition emit (e : effect) s :=
  mkState (sessionId s) (isActive s) (inactivityTimer s) (sessionStorage s)
    (clock s) (timeouts s) (next_handle s) (draws s) (effects s ++ [e]).

(** [sessionStorage.getItem], [setItem] and [removeItem]. *)
Definition getItem (key : string) (s : State) : option string :=
  sessionStorage s !! key.
Definition setItem (key value : string) (s : State) : State :=
  with_sessionStorage (<[key := value]> (sessionStorage s)) s.
Definition removeItem (key : string) (s : State) : State :=
  with_sessionStorage (delete key (sessionStorage s)) s.

(** [setTimeout(callback, delay)] and [clearTimeout(handle)]. *)
Definition setTimeout (delay : Z) (s : State) : positive * State :=
  let h := next_handle s in
  (h, with_next_handle (Pos.succ h)
        (with_timeouts (<[h := clock s + delay]> (timeouts s)) s)).
Definition clearTimeout (h : positive) (s : State) : State :=
  with_timeouts (delete h (timeouts s)) s.

Definition fetch (r : request) (s : State) : State := emit (Fetch r) s.

(** The requests issued so far. *)
Definition requests (s : State) : list request :=
  omap (fun e => match e with Fetch r => Some r | _ => None end) (effects s).

(** The time left before the timeout [h] is due, when it is pending. *)
Definition remaining (h : positive) (s : State) : option Z :=
  (fun deadline => deadline - clock s) <$> timeouts s !! h.

(** ** The class [SessionManager] *)

Definition INACTIVITY_TIMEOUT : Z := 5 * 60 * 1000.
Definition API_BASE_URL : string := "http://localhost:8000".
Definition storage_key : string := "chatbot_session_id".
Definition json_headers : list (string * string) :=
  [("Content-Type", "application/json")].

(** The signals of the activity state machine: window focus and blur, the
    visibility change of the document (with [document.hidden] as it is when
    the listener runs) and the input events. *)
Inductive signal :=
  | focus
  | blur
  | visibilitychange (hidden : bool)
  | activity (e : activity_event).

(** The parsed body of a successful upload: a JSON object with a string
    [session_id] among its fields. *)
Record upload_result := UploadResult {
  session_id : string;
  others : list (string * string)
}.

(** How a call of an async method ends. *)
Inductive completion (A : Type) :=
  | Return (v : A)
  | Throw (e : js_error).
Arguments Return {A}.
Arguments Throw {A}.

Section SessionManager.

Variable random : nat -> Q.

Definition getOrCreateSessionId (s : State) : option string * State :=
  let sessionId := getItem storage_key s in
  if negb (truthy sessionId) then
    let '(id, n) := generateSessionId random (draws s) in
    (Some id, setItem storage_key id (with_draws n s))
  else (sessionId, s).

Definition clearInactivityTimer (s : State) : State :=
  match inactivityTimer s with
  | Some h => with_inactivityTimer None (clearTimeout h s)
  | None => s
  end.

Definition startInactivityTimer (s : State) : State :=
  let s1 := clearInactivityTimer s in
  let '(h, s2) := setTimeout INACTIVITY_TIMEOUT s1 in
  with_inactivityTimer (Some h) s2.

Definition resetInactivityTimer (s : State) : State :=
  if negb (isActive s) then s
  else startInactivityTimer (clearInactivityTimer s).

Definition onActivityResume (s : State) : State :=
  let s1 := clearInactivityTimer (with_isActive true s) in
  emit (ConsoleLog "Activity resumed for session:" (sessionId s1)) s1.

Definition onActivityPause (s : State) : State :=
  let s1 := startInactivityTimer (with_isActive false s) in
  emit (ConsoleLog "Activity paused for session:" (sessionId s1)) s1.

(** [init], after the constructor has set the fields.  The listeners it
    registers are the handlers of [dispatch], [beforeunload] and
    [timeout_fires] below. *)
Definition init (s : State) : State :=
  let '(id, s1) := getOrCreateSessionId s in
  let s2 := with_sessionId id s1 in
  emit (ConsoleLog "Session Manager initialized with session ID:" (sessionId s2)) s2.

(** [new SessionManager()] in a page whose session storage is [storage],
    at time [now]. *)
Definition new_SessionManager (storage : gmap string string) (now : Z) : State :=
  init (mkState None true None storage now ∅ 1%positive 0%nat []).

(** *** Cleanup *)

Definition delete_request (id : option string) : request :=
  Request (API_BASE_URL +:+ "/delete/") "POST" json_headers
    (JsonBody [("session_id", id)]).

(** [cleanupSession] up to its [await]: the guard and the call of [fetch]. *)
Definition cleanupSession_call (s : State) : State :=
  if negb (truthy (sessionId s)) then s
  else fetch (delete_request (sessionId s)) s.

(** [cleanupSession] from its [await] on, once [fetch] has settled. *)
Definition cleanupSession_settle {B} (o : fetch_outcome B) (s : State) : State :=
  match o with
  | Fulfilled r =>
      if ok r then
        let s1 := emit (ConsoleLog "Session cleaned up successfully:" (sessionId s)) s in
        with_sessionId None (removeItem storage_key s1)
      else emit (ConsoleError "Failed to cleanup session:" (statusText r)) s
  | Rejected e => emit (ConsoleError "Error cleaning up session:" (error_message e)) s
  end.

(** [await cleanupSession()], where [o] is how its request settles when it
    issues one. *)
Definition cleanupSession {B} (o : fetch_outcome B) (s : State) : State :=
  if negb (truthy (sessionId s)) then s
  else cleanupSession_settle o (cleanupSession_call s).

Definition notifySessionChange (s : State) : State :=
  emit (DispatchEvent "sessionChanged" (sessionId s)) s.

(** [manualCleanup] after [await this.cleanupSession()]. *)
Definition manualCleanup_resume (s : State) : State :=
  let '(id, n) := generateSessionId random (draws s) in
  let s1 := with_sessionId (Some id) (with_draws n s) in
  let s2 := setItem storage_key id s1 in
  let s3 := emit (ConsoleLog "Manual cleanup completed, new session ID:" (sessionId s2)) s2 in
  notifySessionChange s3.

Definition manualCleanup {B} (o : fetch_outcome B) (s : State) : State :=
  manualCleanup_resume (cleanupSession o s).

Definition getCurrentSessionId (s : State) : option string := sessionId s.

(** *** Events *)

Definition dispatch (e : signal) (s : State) : State :=
  match e with
  | focus => onActivityResume s
  | blur => onActivityPause s
  | visibilitychange hidden =>
      if hidden then onActivityPause s else onActivityResume s
  | activity _ => resetInactivityTimer s
  end.

Definition run (evs : list signal) (s : State) : State :=
  fold_left (fun s e => dispatch e s) evs s.

Definition beforeunload (s : State) : State := cleanupSession_call s.

(** Time passes. *)
Definition elapse (ms : Z) (s : State) : State :=
  with_clock (clock s + Z.max 0 ms) s.

(** The timeout [h] is pending and its deadline has passed. *)
Definition due (h : positive) (s : State) : bool :=
  match timeouts s !! h with
  | Some deadline => deadline <=? clock s
  | None => false
  end.

(** The pending timeout [h] fires, which it can once it is [due]: it is no
    longer pending, and its callback runs up to the [await] of
    [cleanupSession]. *)
Definition timeout_fires (h : positive) (s : State) : option State :=
  if due h s then
    let s1 := with_timeouts (delete h (timeouts s)) s in
    let s2 := emit (ConsoleLog "Session inactive for 5 minutes, cleaning up session:"
                      (sessionId s1)) s1 in
    Some (cleanupSession_call s2)
  else None.

(** *** Remote calls *)

Definition info_request (id : option string) : request :=
  Request (API_BASE_URL +:+ "/sessions/" +:+ default "null" id +:+ "/info")
    "GET" [] NoBody.

(** [getSessionInfo]; [None] is the null it returns. *)
Definition getSessionInfo {B} (o : fetch_outcome B) (s : State)
  : State * completion (option B) :=
  if negb (truthy (sessionId s)) then (s, Return None)
  else
    let s1 := fetch (info_request (sessionId s)) s in
    match o with
    | Fulfilled r =>
        if ok r then
          match json r with
          | inr v => (s1, Return (Some v))
          | inl e => (emit (ConsoleError "Error getting session info:" (error_message e)) s1,
                      Return None)
          end
        else (s1, Return None)
    | Rejected e =>
        (emit (ConsoleError "Error getting session info:" (error_message e)) s1, Return None)
    end.

Definition upload_request (files : list File) : request :=
  Request (API_BASE_URL +:+ "/upload/") "POST" []
    (FormBody (map (fun file => ("files", file)) files)).

Definition uploadFiles (files : list File) (o : fetch_outcome upload_result)
    (s : State) : State * completion upload_result :=
  let s1 := fetch (upload_request files) s in
  let catch (e : js_error) :=
    (emit (ConsoleError "Error uploading files:" (error_message e)) s1, Throw e) in
  match o with
  | Fulfilled r =>
      if ok r then
        match json r with
        | inr result =>
            let s2 := with_sessionId (Some (session_id result)) s1 in
            let s3 := setItem storage_key (session_id result) s2 in
            (emit (ConsoleLog "Files uploaded, session ID updated:" (sessionId s3)) s3,
             Return result)
        | inl e => catch e
        end
      else catch (Error ("Upload failed: " +:+ statusText r))
  | Rejected e => catch e
  end.

Definition chat_request (message : string) (id : option string) : request :=
  Request (API_BASE_URL +:+ "/chat/") "POST" json_headers
    (JsonBody [("query", Some message); ("session_id", id)]).

Definition no_session : js_error :=
  Error "No active session. Please upload documents first.".

Definition sendMessage {B} (message : string) (o : fetch_outcome B) (s : State)
  : State * completion B :=
  if negb (truthy (sessionId s)) then (s, Throw no_session)
  else
    let s1 := fetch (chat_request message (sessionId s)) s in
    let catch (e : js_error) :=
      (emit (ConsoleError "Error sending message:" (error_message e)) s1, Throw e) in
    match o with
    | Fulfilled r =>
        if ok r then
          match json r with
          | inr v => (s1, Return v)
          | inl e => catch e
          end
        else catch (Error ("Chat failed: " +:+ statusText r))
    | Rejected e => catch e
    end.

End SessionManager.

(** ** The canonical shape of an identifier *)

Definition lower_hex (c : ascii) : bool :=
  existsb (Ascii.eqb c) (list_ascii_of_string "0123456789abcdef").

Definition variant_nibble (c : ascii) : bool :=
  existsb (Ascii.eqb c) (list_ascii_of_string "89ab").

(** What the character at position [i] of an identifier has to be. *)
Definition position_ok (i : nat) (c : ascii) : bool :=
  if existsb (Nat.eqb i) [8; 13; 18; 23]%nat then Ascii.eqb c "-"
  else if Nat.eqb i 14 then Ascii.eqb c "4"
  else if Nat.eqb i 19 then variant_nibble c
  else lower_hex c.

Fixpoint positions_ok (i : nat) (s : string) : bool :=
  match s with
  | EmptyString => true
  | String c rest => position_ok i c && positions_ok (S i) rest
  end.

(** 36 characters, hyphens at 8, 13, 18 and 23, the version nibble 4, the
    variant nibble one of 8, 9, a, b, and lowercase hexadecimal digits
    elsewhere. *)
Definition canonical_shape (s : string) : bool :=
  Nat.eqb (String.length s) 36 && positions_ok 0 s.

(** A string matches a template when it has, character by character, a
    hexadecimal digit for x, a variant nibble for y and the character of the
    template elsewhere. *)
Fixpoint matches (template s : string) : bool :=
  match template, s with
  | EmptyString, EmptyString => true
  | String t template', String c s' =>
      (if Ascii.eqb t "x" then lower_hex c
       else if Ascii.eqb t "y" then variant_nibble c
       else Ascii.eqb c t) && matches template' s'
  | _, _ => false
  end.

(** The draws of [Math.random] are in [0, 1). *)
Definition unit_interval (random : nat -> Q) : Prop :=
  forall i, (0 <= random i)%Q /\ (random i < 1)%Q.

(** A template character [t] at position [i] asks for what the canonical
    shape asks for at [i]. *)
Definition agrees (i : nat) (t : ascii) : bool :=
  let hyphen := existsb (Nat.eqb i) [8; 13; 18; 23]%nat in
  if Ascii.eqb t "x" then negb hyphen && negb (Nat.eqb i 14) && negb (Nat.eqb i 19)
  else if Ascii.eqb t "y" then negb hyphen && negb (Nat.eqb i 14) && Nat.eqb i 19
  else if Ascii.eqb t "-" then hyphen
  else if Ascii.eqb t "4" then negb hyphen && Nat.eqb i 14
  else false.

Fixpoint template_agrees (i : nat) (template : string) : bool :=
  match template with
  | EmptyString => true
  | String t rest => agrees i t && template_agrees (S i) rest
  end.

(** The number of draws one identifier takes: one per x or y. *)
Fixpoint placeholders (template : string) : nat :=
  match template with
  | EmptyString => 0%nat
  | String c rest =>
      ((if Ascii.eqb c "x" || Ascii.eqb c "y" then 1 else 0) + placeholders rest)%nat
  end.

(** ** Notions the properties are stated with *)

(** A timeout of the manager is pending. *)
Definition armed (s : State) : bool :=
  negb (bool_decide (timeouts s = ∅)).

(** At most one timeout is pending, and it is the one whose handle the
    manager holds. *)
Definition one_timer (s : State) : Prop :=
  forall h deadline, timeouts s !! h = Some deadline -> inactivityTimer s = Some h.

(** The signals that move the activity state, and those among them that
    resume activity (focus gained, document shown). *)
Definition is_transition (e : signal) : bool :=
  match e with
  | activity _ => false
  | _ => true
  end.

Definition resumes (e : signal) : bool :=
  match e with
  | focus => true
  | visibilitychange hidden => negb hidden
  | _ => false
  end.

Definition is_activity (e : signal) : bool :=
  match e with
  | activity _ => true
  | _ => false
  end.

(** The most recent focus, blur or visibility event of a sequence. *)
Definition last_transition (evs : list signal) : option signal :=
  last (List.filter is_transition evs).

(** The sequence ends with an input event. *)
Definition ends_with_activity (evs : list signal) : bool :=
  match last evs with
  | Some e => is_activity e
  | None => false
  end.

(** The request did not succeed: a status outside 200-299, or a rejection. *)
Definition failed {B} (o : fetch_outcome B) : bool :=
  match o with
  | Fulfilled r => negb (ok r)
  | Rejected _ => true
  end.

(** One step of the page: a signal, time passing, a due timeout firing, the
    page unloading, the request of a cleanup settling, and the calls of the
    public methods ([manualCleanup] is a call of [cleanupSession], its
    settling, and [manualCleanup_resume]). *)
Inductive step (random : nat -> Q) : State -> State -> Prop :=
  | step_signal e s :
      step random s (dispatch e s)
  | step_elapse ms s :
      step random s (elapse ms s)
  | step_timeout h s s' :
      timeout_fires h s = Some s' -> step random s s'
  | step_beforeunload s :
      step random s (beforeunload s)
  | step_cleanup_call s :
      step random s (cleanupSession_call s)
  | step_cleanup_settle (o : fetch_outcome unit) s :
      step random s (cleanupSession_settle o s)
  | step_manualCleanup_resume s :
      step random s (manualCleanup_resume random s)
  | step_getSessionInfo (o : fetch_outcome unit) s :
      step random s (fst (getSessionInfo o s))
  | step_uploadFiles files o s :
      step random s (fst (uploadFiles files o s))
  | step_sendMessage msg (o : fetch_outcome unit) s :
      step random s (fst (sendMessage msg o s)).

Definition reachable (random : nat -> Q) (s : State) : Prop :=
  exists storage now, rtc (step random) (new_SessionManager random storage now) s.

(** ** Sample data *)

Definition sample_random : nat -> Q :=
  fun i => (Z.of_nat ((7 * i + 3) mod 16) # 16)%Q.

Definition http (code : Z) (text : string) : fetch_outcome unit :=
  Fulfilled (Response code text (inr tt)).

(** A fresh page: empty session storage, time 0. *)
Definition fresh_manager : State := new_SessionManager sample_random ∅ 0.

(** A page whose session storage holds the identifier S1. *)
Definition manager_S1 : State :=
  new_SessionManager sample_random {[storage_key := "S1"]} 0.

(** A page that held S1 and whose upload was answered with an empty
    [session_id]. *)
Definition manager_empty_id : State :=
  fst (uploadFiles ["report.pdf"]
         (Fulfilled (Response 200 "OK" (inr (UploadResult "" [])))) manager_S1).

(** Draws other than [sample_random] that give the same digits. *)
Definition sample_random_shifted : nat -> Q :=
  fun i => (2 * Z.of_nat ((7 * i + 3) mod 16) + 1 # 32)%Q.

(** A session storage that holds S1 and a key of another script. *)
Definition themed_storage : gmap string string :=
  {[storage_key := "S1"; "theme" := "dark"]}.

(** The page of [themed_storage] after it was unloaded and the delete request
    of the unload was answered. *)
Definition closing_page : State :=
  cleanupSession_settle (http 204 "No Content")
    (beforeunload (new_SessionManager sample_random themed_storage 0)).

(** ** Notions of the further properties *)

(** The value of a hexadecimal digit. *)
Definition nibble_value (c : ascii) : Z :=
  match String.index 0 (String c EmptyString) "0123456789abcdef" with
  | Some i => Z.of_nat i
  | None => 0
  end.

(** The digits an identifier has where the template has an x or a y. *)
Fixpoint read_nibbles (template s : string) : list Z :=
  match template, s with
  | String t template', String c s' =>
      if Ascii.eqb t "x" || Ascii.eqb t "y"
      then nibble_value c :: read_nibbles template' s'
      else read_nibbles template' s'
  | _, _ => []
  end.

(** The numbers [v] the callback of [generateSessionId] computes, match after
    match: [r] for an x and [r & 0x3 | 0x8] for a y, where
    [r = Math.random() * 16 | 0]. *)
Fixpoint drawn_nibbles (random : nat -> Q) (template : string) (draws : nat)
  : list Z :=
  match template with
  | EmptyString => []
  | String t rest =>
      if Ascii.eqb t "x" || Ascii.eqb t "y" then
        let r := Z.lor (ToInt32 (random draws * 16)%Q) 0 in
        (if Ascii.eqb t "x" then r else Z.lor (Z.land r 3) 8)
          :: drawn_nibbles random rest (S draws)
      else drawn_nibbles random rest draws
  end.

(** The requests the manager can send: a delete, a chat or an info request
    with a non-empty identifier, or an upload. *)
Definition sent_by_manager (r : request) : Prop :=
  (exists id, id <> "" /\ r = delete_request (Some id)) \/
  (exists msg id, id <> "" /\ r = chat_request msg (Some id)) \/
  (exists id, id <> "" /\ r = info_request (Some id)) \/
  (exists files, r = upload_request files).

Section GenerationFacts.

Variable random : nat -> Q.
Hypothesis random_unit : unit_interval random.

Lemma nibble_range x :
  (0 <= x)%Q -> (x < 1)%Q -> 0 <= Z.lor (ToInt32 (x * 16)%Q) 0 < 16.
Proof.
  intros H0 H1. rewrite Z.lor_0_r. unfold ToInt32, Qtruncate.
  assert (Hlo : (0 <= x * 16)%Q).
  { apply Qmult_le_0_compat; [exact H0 | discriminate]. }
  assert (Hhi : (x * 16 < inject_Z 16)%Q).
  { apply Qlt_le_trans with (1 * 16)%Q.
    - apply Qmult_lt_compat_r; [reflexivity | exact H1].
    - discriminate. }
  destruct (Qle_bool 0 (x * 16)) eqn:E.
  - assert (0 <= Qfloor (x * 16)).
    { change 0 with (Qfloor 0). apply Qfloor_resp_le. exact Hlo. }
    assert (Qfloor (x * 16) < 16).
    { rewrite Zlt_Qlt. eapply Qle_lt_trans; [apply Qfloor_le | exact Hhi]. }
    unfold wrap_int32. rewrite Z.mod_small; lia.
  - apply Qle_bool_iff in Hlo. congruence.
Qed.

Lemma toString16_digit v :
  0 <= v < 16 -> toString16 v = String (hex_digit v) EmptyString.
Proof.
  intros Hv. unfold toString16.
  destruct (Z.ltb_spec v 0); [lia |].
  destruct (Z.to_nat v); simpl;
    destruct (Z.ltb_spec v 16); (reflexivity || lia).
Qed.

Lemma small_cases v : 0 <= v < 16 ->
  In v [0; 1; 2; 3; 4; 5; 6; 7; 8; 9; 10; 11; 12; 13; 14; 15].
Proof. simpl. lia. Qed.

Lemma hex_digit_lower v : 0 <= v < 16 -> lower_hex (hex_digit v) = true.
Proof.
  intros Hv. apply small_cases in Hv. simpl in Hv.
  repeat (destruct Hv as [Hv | Hv]; [subst v; reflexivity |]). destruct Hv.
Qed.

Lemma variant_range r : 0 <= r < 16 -> 8 <= Z.lor (Z.land r 3) 8 < 12.
Proof.
  intros Hr. apply small_cases in Hr. simpl in Hr.
  repeat (destruct Hr as [Hr | Hr]; [subst r; split; [apply Z.leb_le | apply Z.ltb_lt]; reflexivity |]).
  destruct Hr.
Qed.

Lemma hex_digit_variant v : 8 <= v < 12 -> variant_nibble (hex_digit v) = true.
Proof.
  intros Hv. assert (H : In v [8; 9; 10; 11]) by (simpl; lia). simpl in H.
  repeat (destruct H as [H | H]; [subst v; reflexivity |]). destruct H.
Qed.

(** The callback returns one character, of the class its argument asks for. *)
Lemma replacement_char c i :
  exists d, replacement c (random i) = String d EmptyString /\
    (if Ascii.eqb c "x" then lower_hex d else variant_nibble d) = true.
Proof.
  destruct (random_unit i) as [H0 H1].
  pose proof (nibble_range _ H0 H1) as Hr.
  unfold replacement. destruct (Ascii.eqb c "x").
  - eexists. split; [apply toString16_digit; exact Hr |].
    apply hex_digit_lower; exact Hr.
  - pose proof (variant_range _ Hr) as Hv.
    eexists. split; [apply toString16_digit; lia |].
    apply hex_digit_variant; exact Hv.
Qed.

Lemma replace_xy_matches template draws :
  matches template (fst (replace_xy random template draws)) = true.
Proof.
  revert draws. induction template as [| t template IH]; intros draws.
  - reflexivity.
  - simpl. destruct (Ascii.eqb t "x") eqn:Ex; simpl.
    + destruct (replacement_char t draws) as [d [-> Hd]]. rewrite Ex in Hd.
      specialize (IH (S draws)).
      destruct (replace_xy random template (S draws)) as [out n]. simpl in *.
      change ("" +:+ out) with out. rewrite Hd. exact IH.
    + destruct (Ascii.eqb t "y") eqn:Ey; simpl.
      * destruct (replacement_char t draws) as [d [-> Hd]]. rewrite Ex in Hd.
        specialize (IH (S draws)).
        destruct (replace_xy random template (S draws)) as [out n]. simpl in *.
        change ("" +:+ out) with out. rewrite Hd. exact IH.
      * specialize (IH draws).
        destruct (replace_xy random template draws) as [out n]. simpl in *.
        rewrite Ascii.eqb_refl. exact IH.
Qed.

End GenerationFacts.

Lemma agrees_position i t c :
  agrees i t = true ->
  (if Ascii.eqb t "x" then lower_hex c
   else if Ascii.eqb t "y" then variant_nibble c else Ascii.eqb c t) = true ->
  position_ok i c = true.
Proof.
  unfold agrees, position_ok.
  destruct (existsb (Nat.eqb i) [8; 13; 18; 23]%nat), (Nat.eqb i 14), (Nat.eqb i 19);
    destruct (Ascii.eqb t "x"); try discriminate; try tauto;
    destruct (Ascii.eqb t "y"); try discriminate; try tauto;
    destruct (Ascii.eqb_spec t "-"); try discriminate; subst; try tauto;
    destruct (Ascii.eqb_spec t "4"); try discriminate; subst; tauto.
Qed.

Lemma matches_positions template : forall i s,
  template_agrees i template = true ->
  matches template s = true ->
  positions_ok i s = true /\ String.length s = String.length template.
Proof.
  induction template as [| t template IH]; intros i [| c s]; simpl;
    try discriminate; [auto |].
  intros Ht Hm.
  apply andb_prop in Ht as [Ht Hts]. apply andb_prop in Hm as [Hc Hm].
  destruct (IH _ _ Hts Hm) as [Hp Hl].
  rewrite (agrees_position _ _ _ Ht Hc), Hp, Hl. auto.
Qed.

Lemma matches_canonical s :
  matches uuid_template s = true -> canonical_shape s = true.
Proof.
  intros H. unfold canonical_shape.
  destruct (matches_positions uuid_template 0 s eq_refl H) as [-> ->].
  reflexivity.
Qed.

(** ** The inactivity timer *)

Section Timer.

Variable random : nat -> Q.

Lemma one_timer_frame s s' :
  timeouts s' = timeouts s -> inactivityTimer s' = inactivityTimer s ->
  one_timer s -> one_timer s'.
Proof. unfold one_timer. intros -> ->. auto. Qed.

(** Disarming leaves no timeout pending. *)
Lemma clearInactivityTimer_pending s :
  one_timer s ->
  timeouts (clearInactivityTimer s) = ∅ /\
  inactivityTimer (clearInactivityTimer s) = None.
Proof.
  intros Hs. unfold clearInactivityTimer.
  destruct (inactivityTimer s) as [h0 |] eqn:E; simpl; split; try done.
  - apply map_eq. intros h. rewrite lookup_empty.
    destruct (decide (h0 = h)) as [-> | Hne].
    + apply lookup_delete_eq.
    + rewrite lookup_delete_ne by done.
      destruct (timeouts s !! h) as [d |] eqn:F; [| done].
      apply Hs in F. congruence.
  - apply map_eq. intros h. rewrite lookup_empty.
    destruct (timeouts s !! h) as [d |] eqn:F; [| done].
    apply Hs in F. congruence.
Qed.

Lemma clearInactivityTimer_frame s :
  sessionId (clearInactivityTimer s) = sessionId s /\
  isActive (clearInactivityTimer s) = isActive s /\
  clock (clearInactivityTimer s) = clock s /\
  next_handle (clearInactivityTimer s) = next_handle s.
Proof. unfold clearInactivityTimer. destruct (inactivityTimer s); done. Qed.

(** Arming leaves exactly the new timeout pending, due a full
    [INACTIVITY_TIMEOUT] from now. *)
Lemma startInactivityTimer_pending s :
  one_timer s ->
  timeouts (startInactivityTimer s) =
    {[next_handle s := clock s + INACTIVITY_TIMEOUT]} /\
  inactivityTimer (startInactivityTimer s) = Some (next_handle s).
Proof.
  intros Hs. unfold startInactivityTimer, setTimeout. simpl.
  destruct (clearInactivityTimer_pending s Hs) as [-> _].
  destruct (clearInactivityTimer_frame s) as (_ & _ & -> & ->).
  split; [apply insert_empty | done].
Qed.

Lemma startInactivityTimer_frame s :
  sessionId (startInactivityTimer s) = sessionId s /\
  isActive (startInactivityTimer s) = isActive s /\
  clock (startInactivityTimer s) = clock s.
Proof.
  unfold startInactivityTimer, setTimeout. simpl.
  destruct (clearInactivityTimer_frame s) as (-> & -> & -> & _). done.
Qed.

(** The timeout the manager holds is pending with the full delay left,
    whatever was pending before. *)
Lemma startInactivityTimer_remaining s :
  exists h, inactivityTimer (startInactivityTimer s) = Some h /\
    remaining h (startInactivityTimer s) = Some INACTIVITY_TIMEOUT.
Proof.
  exists (next_handle s). unfold startInactivityTimer, setTimeout, remaining. simpl.
  destruct (clearInactivityTimer_frame s) as (_ & _ & -> & ->).
  split; [done |]. rewrite lookup_insert_eq. simpl. f_equal. lia.
Qed.

Lemma one_timer_clear s : one_timer s -> one_timer (clearInactivityTimer s).
Proof.
  intros Hs h d. destruct (clearInactivityTimer_pending s Hs) as [-> _].
  rewrite lookup_empty. done.
Qed.

Lemma one_timer_start s : one_timer s -> one_timer (startInactivityTimer s).
Proof.
  intros Hs h d. destruct (startInactivityTimer_pending s Hs) as [-> ->].
  intros [<- _]%lookup_singleton_Some. done.
Qed.

Lemma one_timer_dispatch e s : one_timer s -> one_timer (dispatch e s).
Proof.
  intros Hs.
  assert (Hr : one_timer (onActivityResume s)).
  { unfold onActivityResume.
    eapply one_timer_frame; [| | apply one_timer_clear, (one_timer_frame s)]; done. }
  assert (Hp : one_timer (onActivityPause s)).
  { unfold onActivityPause.
    eapply one_timer_frame; [| | apply one_timer_start, (one_timer_frame s)]; done. }
  destruct e as [| | [|] | k]; simpl; try done.
  unfold resetInactivityTimer. destruct (isActive s); simpl; [| done].
  by apply one_timer_start, one_timer_clear.
Qed.

Lemma run_snoc evs e s : run (evs ++ [e]) s = dispatch e (run evs s).
Proof. unfold run. by rewrite fold_left_app. Qed.

Lemma one_timer_new storage now : one_timer (new_SessionManager random storage now).
Proof.
  intros h d. unfold new_SessionManager, init, getOrCreateSessionId. simpl.
  destruct (truthy _); simpl;
    [| destruct (generateSessionId random 0)]; simpl; rewrite lookup_empty; done.
Qed.

Lemma one_timer_run evs s : one_timer s -> one_timer (run evs s).
Proof.
  revert s. induction evs as [| e evs IH]; intros s Hs; [done |].
  apply IH, one_timer_dispatch, Hs.
Qed.

(** What each handler does to the activity state and to the timer. *)
Lemma resume_state s :
  one_timer s ->
  isActive (onActivityResume s) = true /\ armed (onActivityResume s) = false.
Proof.
  intros Hs. unfold onActivityResume, armed, emit. cbn [timeouts isActive].
  assert (H1 : one_timer (with_isActive true s)) by (by eapply one_timer_frame).
  destruct (clearInactivityTimer_pending _ H1) as [-> _].
  destruct (clearInactivityTimer_frame (with_isActive true s)) as (_ & -> & _).
  done.
Qed.

Lemma pause_state s :
  one_timer s ->
  isActive (onActivityPause s) = false /\ armed (onActivityPause s) = true.
Proof.
  intros Hs. unfold onActivityPause, armed, emit. cbn [timeouts isActive].
  assert (H1 : one_timer (with_isActive false s)) by (by eapply one_timer_frame).
  destruct (startInactivityTimer_pending _ H1) as [-> _].
  destruct (startInactivityTimer_frame (with_isActive false s)) as (_ & -> & _).
  split; [done |]. rewrite bool_decide_eq_false_2; [done |].
  apply insert_non_empty.
Qed.

Lemma reset_state s :
  one_timer s -> isActive s = true ->
  isActive (resetInactivityTimer s) = true /\ armed (resetInactivityTimer s) = true.
Proof.
  intros Hs Ha. unfold resetInactivityTimer, armed. rewrite Ha. cbn [negb].
  pose proof (one_timer_clear s Hs) as H1.
  destruct (startInactivityTimer_pending _ H1) as [-> _].
  destruct (startInactivityTimer_frame (clearInactivityTimer s)) as (_ & -> & _).
  destruct (clearInactivityTimer_frame s) as (_ & -> & _).
  split; [done |]. rewrite bool_decide_eq_false_2; [done |].
  apply insert_non_empty.
Qed.

Lemma reset_paused s : isActive s = false -> resetInactivityTimer s = s.
Proof. intros Ha. unfold resetInactivityTimer. by rewrite Ha. Qed.

End Timer.

(** ** The activity state machine *)

Section Activity.

Variable random : nat -> Q.

Lemma isActive_dispatch e s :
  isActive (dispatch e s) = if is_transition e then resumes e else isActive s.
Proof.
  assert (Hr : isActive (onActivityResume s) = true).
  { unfold onActivityResume, emit. cbn [isActive].
    by destruct (clearInactivityTimer_frame (with_isActive true s)) as (_ & -> & _). }
  assert (Hp : isActive (onActivityPause s) = false).
  { unfold onActivityPause, emit. cbn [isActive].
    by destruct (startInactivityTimer_frame (with_isActive false s)) as (_ & -> & _). }
  destruct e as [| | [|] | k]; cbn [dispatch is_transition resumes negb]; try done.
  unfold resetInactivityTimer. destruct (isActive s) eqn:Ha; cbn [negb]; [| done].
  destruct (startInactivityTimer_frame (clearInactivityTimer s)) as (_ & -> & _).
  by destruct (clearInactivityTimer_frame s) as (_ & -> & _).
Qed.

Lemma last_transition_snoc evs e :
  last_transition (evs ++ [e]) =
    if is_transition e then Some e else last_transition evs.
Proof.
  unfold last_transition. rewrite List.filter_app. simpl.
  destruct (is_transition e); [apply last_snoc | by rewrite app_nil_r].
Qed.

(** The activity state is the one the most recent transition left, and
    the initial one when there was none. *)
Lemma isActive_run evs s :
  isActive (run evs s) =
    match last_transition evs with
    | Some e => resumes e
    | None => isActive s
    end.
Proof.
  induction evs as [| e evs IH] using rev_ind; [done |].
  rewrite run_snoc, isActive_dispatch, last_transition_snoc.
  destruct (is_transition e); done.
Qed.

Lemma isActive_new storage now :
  isActive (new_SessionManager random storage now) = true.
Proof.
  unfold new_SessionManager, init, getOrCreateSessionId. simpl.
  destruct (truthy _); [| destruct (generateSessionId random 0)]; done.
Qed.

(** C5. After any finite sequence of focus, blur, visibility and input
    events delivered to a new manager, the activity state is ACTIVE if and
    only if the most recent focus, blur or visibility event was a focus gain
    or a change to visible, or there was no such event. *)
Theorem active_iff_last_transition_resumes storage now evs :
  isActive (run evs (new_SessionManager random storage now)) = true <->
  last_transition evs = None \/
  last_transition evs = Some focus \/
  last_transition evs = Some (visibilitychange false).
Proof.
  rewrite isActive_run, isActive_new.
  destruct (last_transition evs) as [[| | [|] | k] |]; simpl;
    intuition congruence.
Qed.

(** C1, as the code has it.  After any sequence of focus, blur, visibility
    and input events delivered to a new manager, at most one timeout is
    pending and it is the one the manager holds; the timer is armed if and
    only if the state is PAUSED or the most recent event was an input
    event (which then arrived while ACTIVE). *)
Theorem armed_iff_paused_or_input storage now evs :
  one_timer (run evs (new_SessionManager random storage now)) /\
  armed (run evs (new_SessionManager random storage now)) =
    negb (isActive (run evs (new_SessionManager random storage now)))
    || ends_with_activity evs.
Proof.
  split; [apply one_timer_run, one_timer_new |].
  induction evs as [| e evs IH] using rev_ind.
  - simpl. rewrite isActive_new. unfold armed.
    unfold new_SessionManager, init, getOrCreateSessionId. simpl.
    destruct (truthy _); [| destruct (generateSessionId random 0)]; done.
  - rewrite run_snoc. unfold ends_with_activity. rewrite last_snoc.
    pose proof (one_timer_run evs _ (one_timer_new random storage now)) as Hs.
    set (s := run evs (new_SessionManager random storage now)) in *.
    destruct e as [| | [|] | k]; cbn [dispatch is_activity].
    + by destruct (resume_state s Hs) as [-> ->].
    + by destruct (pause_state s Hs) as [-> ->].
    + by destruct (pause_state s Hs) as [-> ->].
    + by destruct (resume_state s Hs) as [-> ->].
    + destruct (isActive s) eqn:Ha.
      * by destruct (reset_state s Hs Ha) as [-> ->].
      * rewrite (reset_paused s Ha), Ha, IH. done.
Qed.

(** C6. An input event delivered while ACTIVE leaves the state ACTIVE and
    the timer the manager holds pending with the full timeout of 5 minutes
    left (and, at most one timeout being pending before, it is the only
    one pending after); delivered while PAUSED it changes nothing. *)
Theorem input_resets_timer_only_while_active k s :
  (isActive s = true ->
     isActive (dispatch (activity k) s) = true /\
     exists h, inactivityTimer (dispatch (activity k) s) = Some h /\
       remaining h (dispatch (activity k) s) = Some (5 * 60 * 1000)) /\
  (isActive s = true -> one_timer s ->
     exists h, timeouts (dispatch (activity k) s) =
                 {[h := clock (dispatch (activity k) s) + 5 * 60 * 1000]}) /\
  (isActive s = false -> dispatch (activity k) s = s).
Proof.
  split; [| split].
  - intros Ha. split; [by rewrite isActive_dispatch |].
    cbn [dispatch]. unfold resetInactivityTimer. rewrite Ha. cbn [negb].
    apply startInactivityTimer_remaining.
  - intros Ha Hs. cbn [dispatch]. unfold resetInactivityTimer. rewrite Ha. cbn [negb].
    exists (next_handle (clearInactivityTimer s)).
    destruct (startInactivityTimer_pending _ (one_timer_clear s Hs)) as [-> _].
    by destruct (startInactivityTimer_frame (clearInactivityTimer s)) as (_ & _ & ->).
  - apply reset_paused.
Qed.

End Activity.

(** ** Cleanup *)

Section Cleanup.

Variable random : nat -> Q.

Lemma requests_emit e s :
  requests (emit e s) =
    requests s ++ match e with Fetch r => [r] | _ => [] end.
Proof. unfold requests, emit. simpl. rewrite omap_app. by destruct e. Qed.

Lemma ok_status {B} (r : response B) : ok r = true <-> 200 <= status r <= 299.
Proof. unfold ok. rewrite andb_true_iff, !Z.leb_le. done. Qed.

(** No identifier held: nothing happens, no request is issued. *)
Lemma cleanupSession_nothing_held {B} (o : fetch_outcome B) s :
  truthy (sessionId s) = false -> cleanupSession o s = s.
Proof. intros H. unfold cleanupSession. by rewrite H. Qed.

(** The requests of one cleanup: one delete request carrying the
    identifier when one is held, none otherwise. *)
Lemma cleanupSession_requests {B} (o : fetch_outcome B) s :
  requests (cleanupSession o s) =
    requests s ++
    (if truthy (sessionId s) then [delete_request (sessionId s)] else []).
Proof.
  unfold cleanupSession, cleanupSession_call, cleanupSession_settle, fetch.
  destruct (truthy (sessionId s)); simpl; [| by rewrite app_nil_r].
  destruct o as [r | e]; [destruct (ok r) |];
    unfold removeItem, with_sessionId, with_sessionStorage;
    rewrite ?requests_emit; simpl; unfold requests; simpl;
    rewrite ?omap_app; simpl; by rewrite ?app_nil_r.
Qed.

Lemma cleanupSession_failed {B} (o : fetch_outcome B) s :
  failed o = true ->
  sessionId (cleanupSession o s) = sessionId s /\
  sessionStorage (cleanupSession o s) = sessionStorage s.
Proof.
  unfold cleanupSession, cleanupSession_call, cleanupSession_settle.
  destruct (truthy (sessionId s)); [| done].
  destruct o as [r | e]; simpl; [| done].
  destruct (ok r); [discriminate | done].
Qed.

Lemma cleanupSession_succeeded {B} (o : fetch_outcome B) s :
  failed o = false -> truthy (sessionId s) = true ->
  sessionId (cleanupSession o s) = None /\
  sessionStorage (cleanupSession o s) !! storage_key = None.
Proof.
  unfold cleanupSession, cleanupSession_call, cleanupSession_settle.
  intros Ho ->. destruct o as [r | e]; simpl in *; [| discriminate].
  destruct (ok r); [| discriminate]. simpl.
  split; [done | apply lookup_delete_eq].
Qed.

(** C2, as the code has it.  A call of [cleanupSession] never touches the
    inactivity timer: the pending timeouts, the handle the manager holds
    and the clock are after the call what they were before, in each of its
    two halves and whatever the outcome of the request; a timeout that
    could fire before the call can fire after it. *)
Theorem cleanupSession_keeps_timer {B} (o : fetch_outcome B) s :
  (timeouts (cleanupSession o s) = timeouts s /\
   inactivityTimer (cleanupSession o s) = inactivityTimer s /\
   forall h, due h (cleanupSession o s) = due h s) /\
  (timeouts (cleanupSession_call s) = timeouts s /\
   inactivityTimer (cleanupSession_call s) = inactivityTimer s) /\
  (timeouts (cleanupSession_settle o s) = timeouts s /\
   inactivityTimer (cleanupSession_settle o s) = inactivityTimer s).
Proof.
  unfold due, cleanupSession, cleanupSession_call, cleanupSession_settle.
  destruct (truthy (sessionId s)); simpl;
    (destruct o as [r | e]; [destruct (ok r) |]); simpl; done.
Qed.

(** C3. When the delete request fails (status outside 200-299, or the
    request is rejected), [cleanupSession] leaves the identifier in memory
    and the session storage as they were, and so does the half of it that
    runs after the request settled, in whatever state it resumes; when an
    identifier is held and the request succeeds, both are cleared; and
    whenever either one changed, the request was answered with a status in
    200-299. *)
Theorem cleanupSession_clears_only_on_success {B} (o : fetch_outcome B) s :
  (failed o = true ->
     sessionId (cleanupSession o s) = sessionId s /\
     sessionStorage (cleanupSession o s) = sessionStorage s) /\
  (failed o = true ->
     sessionId (cleanupSession_settle o s) = sessionId s /\
     sessionStorage (cleanupSession_settle o s) = sessionStorage s) /\
  (failed o = false -> truthy (sessionId s) = true ->
     sessionId (cleanupSession o s) = None /\
     sessionStorage (cleanupSession o s) !! storage_key = None) /\
  (sessionId (cleanupSession o s) <> sessionId s \/
   sessionStorage (cleanupSession o s) <> sessionStorage s ->
     exists r, o = Fulfilled r /\ 200 <= status r <= 299).
Proof.
  split; [apply cleanupSession_failed |].
  split.
  { unfold cleanupSession_settle. destruct o as [r | e]; simpl; [| done].
    destruct (ok r); [discriminate | done]. }
  split; [apply cleanupSession_succeeded |].
  intros Hchanged. destruct (failed o) eqn:Ho.
  - destruct (cleanupSession_failed o s Ho) as [H1 H2].
    destruct Hchanged; congruence.
  - destruct o as [r | e]; [| discriminate]. exists r. split; [done |].
    apply ok_status. simpl in Ho. by destruct (ok r).
Qed.

(** C7, as the code has it.  With no identifier held, [cleanupSession] is a
    no-op (the state, and with it the log of requests, is unchanged).  Of
    two calls in succession, when the first request succeeds the second
    call is a no-op and exactly one delete request has been issued (none
    when no identifier was held); when the first request fails the
    identifier is still held and the second call issues the delete request
    again. *)
Theorem cleanupSession_twice {B} (o1 o2 : fetch_outcome B) s :
  (truthy (sessionId s) = false -> cleanupSession o1 s = s) /\
  (failed o1 = false ->
     cleanupSession o2 (cleanupSession o1 s) = cleanupSession o1 s /\
     requests (cleanupSession o2 (cleanupSession o1 s)) =
       requests s ++
       (if truthy (sessionId s) then [delete_request (sessionId s)] else [])) /\
  (failed o1 = true -> truthy (sessionId s) = true ->
     requests (cleanupSession o2 (cleanupSession o1 s)) =
       requests s ++
       [delete_request (sessionId s); delete_request (sessionId s)]).
Proof.
  split; [apply cleanupSession_nothing_held |]. split.
  - intros Ho.
    assert (H2 : cleanupSession o2 (cleanupSession o1 s) = cleanupSession o1 s).
    { apply cleanupSession_nothing_held.
      destruct (truthy (sessionId s)) eqn:Hid.
      - by destruct (cleanupSession_succeeded o1 s Ho Hid) as [-> _].
      - by rewrite (cleanupSession_nothing_held o1 s Hid). }
    rewrite H2. split; [done | apply cleanupSession_requests].
  - intros Ho Hid. rewrite !cleanupSession_requests.
    destruct (cleanupSession_failed o1 s Ho) as [-> _].
    rewrite Hid. by rewrite <- app_assoc.
Qed.

Lemma replace_xy_draws template draws :
  snd (replace_xy random template draws) = (draws + placeholders template)%nat.
Proof.
  revert draws. induction template as [| c template IH]; intros draws; simpl.
  - lia.
  - destruct (Ascii.eqb c "x" || Ascii.eqb c "y").
    + specialize (IH (S draws)).
      destruct (replace_xy random template (S draws)). simpl in *. lia.
    + specialize (IH draws).
      destruct (replace_xy random template draws). simpl in *. lia.
Qed.

(** C4. [manualCleanup] runs the cleanup procedure and then, whatever the
    outcome of its request, generates an identifier from 31 new draws,
    holds it, stores it in the session storage, and dispatches a
    sessionChanged event whose detail carries it; the delete request of
    the cleanup is the only request issued. *)
Theorem manualCleanup_renews_session {B} (o : fetch_outcome B) s :
  sessionId (manualCleanup random o s) =
    Some (fst (generateSessionId random (draws (cleanupSession o s)))) /\
  sessionStorage (manualCleanup random o s) !! storage_key =
    sessionId (manualCleanup random o s) /\
  draws (manualCleanup random o s) = (draws (cleanupSession o s) + 31)%nat /\
  effects (manualCleanup random o s) =
    effects (cleanupSession o s) ++
    [ConsoleLog "Manual cleanup completed, new session ID:"
       (sessionId (manualCleanup random o s));
     DispatchEvent "sessionChanged" (sessionId (manualCleanup random o s))] /\
  requests (manualCleanup random o s) =
    requests s ++
    (if truthy (sessionId s) then [delete_request (sessionId s)] else []).
Proof.
  rewrite <- (cleanupSession_requests o s).
  unfold manualCleanup, manualCleanup_resume.
  pose proof (replace_xy_draws uuid_template (draws (cleanupSession o s))) as Hd.
  unfold generateSessionId in *.
  destruct (replace_xy random uuid_template (draws (cleanupSession o s))) as [id n].
  simpl in *. rewrite lookup_insert_eq, <- app_assoc.
  repeat split; try done.
  unfold notifySessionChange. rewrite !requests_emit, !app_nil_r. done.
Qed.

End Cleanup.

(** ** Chat and upload *)

Section RemoteCalls.

Lemma truthy_nonempty id : id <> "" -> truthy (Some id) = true.
Proof. intros H. simpl. by apply String.eqb_neq in H as ->. Qed.

(** C8, as the code has it.  [sendMessage] called while the identifier is
    null or the empty string throws the no-active-session error at once:
    the state, and with it the log of requests, is unchanged.  Called with
    a non-empty identifier it issues one request to the chat endpoint with
    the message and the identifier, and returns the parsed response when
    the status is in 200-299, throws an error naming the status text when
    it is not, and throws the rejection when the request is rejected. *)
Theorem sendMessage_needs_session {B} (msg : string) (o : fetch_outcome B) s :
  (sessionId s = None \/ sessionId s = Some "" ->
     sendMessage msg o s = (s, Throw no_session)) /\
  (forall id, sessionId s = Some id -> id <> "" ->
     requests (fst (sendMessage msg o s)) =
       requests s ++ [chat_request msg (Some id)] /\
     (forall r v, o = Fulfilled r -> ok r = true -> json r = inr v ->
        snd (sendMessage msg o s) = Return v) /\
     (forall r, o = Fulfilled r -> ok r = false ->
        snd (sendMessage msg o s) =
          Throw (Error ("Chat failed: " +:+ statusText r))) /\
     (forall e, o = Rejected e -> snd (sendMessage msg o s) = Throw e)).
Proof.
  split.
  - unfold sendMessage. by intros [-> | ->].
  - intros id Hid Hne. unfold sendMessage. rewrite Hid, (truthy_nonempty id Hne).
    cbn [negb]. repeat split.
    + destruct o as [r | e]; [destruct (ok r); [destruct (json r) |] |];
        unfold fetch; cbn [fst]; rewrite !requests_emit; by rewrite ?app_nil_r.
    + intros r v -> -> ->. done.
    + intros r -> ->. done.
    + intros e ->. done.
Qed.

(** C9, as the code has it.  When the upload is answered with a status in
    200-299 and a body that parses, [uploadFiles] returns the parsed result,
    and the identifier in memory and the one in the session storage are the
    [session_id] of that result, whatever the identifier was; in every state
    that holds this identifier, [sendMessage] issues one request, which
    carries it, when it is not empty, and no request when it is empty. *)
Theorem uploadFiles_adopts_session_id files r result s :
  ok r = true -> json r = inr result ->
  snd (uploadFiles files (Fulfilled r) s) = Return result /\
  sessionId (fst (uploadFiles files (Fulfilled r) s)) = Some (session_id result) /\
  sessionStorage (fst (uploadFiles files (Fulfilled r) s)) !! storage_key =
    Some (session_id result) /\
  forall B msg (o : fetch_outcome B) s',
    sessionId s' = sessionId (fst (uploadFiles files (Fulfilled r) s)) ->
    requests (fst (sendMessage msg o s')) =
      requests s' ++
      (if truthy (Some (session_id result))
       then [chat_request msg (Some (session_id result))] else []).
Proof.
  intros Hok Hjson.
  assert (Hid : sessionId (fst (uploadFiles files (Fulfilled r) s)) =
                Some (session_id result)).
  { unfold uploadFiles. by rewrite Hok, Hjson. }
  repeat split.
  - unfold uploadFiles. by rewrite Hok, Hjson.
  - exact Hid.
  - unfold uploadFiles. rewrite Hok, Hjson. simpl. apply lookup_insert_eq.
  - intros B msg o s' Hs'. rewrite Hid in Hs'. unfold sendMessage. rewrite Hs'.
    destruct (truthy (Some (session_id result))); cbn [negb fst];
      [| by rewrite app_nil_r].
    destruct o as [r' | e]; [destruct (ok r'); [destruct (json r') |] |];
      unfold fetch; cbn [fst]; rewrite !requests_emit; by rewrite ?app_nil_r.
Qed.

End RemoteCalls.

(** ** Identifiers *)

(** C10. Whatever numbers of [0, 1) [Math.random] draws, the string
    [generateSessionId] returns has the canonical shape
    xxxxxxxx-xxxx-4xxx-yxxx-xxxxxxxxxxxx: 36 characters, hyphens at
    positions 8, 13, 18 and 23, the version nibble 4, the variant nibble one
    of 8, 9, a, b, and a lowercase hexadecimal digit everywhere else. *)
Theorem generateSessionId_canonical random draws :
  unit_interval random ->
  canonical_shape (fst (generateSessionId random draws)) = true.
Proof.
  intros Hr. apply matches_canonical, replace_xy_matches, Hr.
Qed.

(** ** Every reachable state *)

(** X22. At most one inactivity timer is pending in every state the page
    can reach, whatever the interleaving of signals, timeouts, settled
    requests and method calls. *)
Theorem reachable_one_timer random s : reachable random s -> one_timer s.
Proof.
  intros (storage & now & Hrun).
  revert s Hrun. apply (rtc_ind_r (fun s => one_timer s)); [apply one_timer_new |].
  intros s1 s2 _ Hstep IH.
  destruct Hstep as [e s | ms s | h s s' Hf | s | s | o s | s | o s | files o s | msg o s].
  - by apply one_timer_dispatch.
  - by eapply one_timer_frame.
  - unfold timeout_fires in Hf. destruct (due h s); [| discriminate].
    injection Hf as <-. intros h' d. unfold cleanupSession_call.
    destruct (truthy _); simpl; intros [_ H]%lookup_delete_Some; exact (IH _ _ H).
  - unfold beforeunload, cleanupSession_call.
    destruct (truthy _); by eapply one_timer_frame.
  - unfold cleanupSession_call. destruct (truthy _); by eapply one_timer_frame.
  - unfold cleanupSession_settle.
    destruct o as [r | e]; [destruct (ok r) |]; by eapply one_timer_frame.
  - unfold manualCleanup_resume. destruct (generateSessionId random (draws s)).
    by eapply one_timer_frame.
  - unfold getSessionInfo. destruct (truthy _); [| done].
    destruct o as [r | e]; [destruct (ok r); [destruct (json r) |] |];
      by eapply one_timer_frame.
  - unfold uploadFiles.
    destruct o as [r | e]; [destruct (ok r); [destruct (json r) |] |];
      by eapply one_timer_frame.
  - unfold sendMessage. destruct (truthy _); [| done].
    destruct o as [r | e]; [destruct (ok r); [destruct (json r) |] |];
      by eapply one_timer_frame.
Qed.

(** ** The properties on concrete pages *)

Lemma sample_random_unit : unit_interval sample_random.
Proof.
  intros i. unfold sample_random, Qle, Qlt. simpl.
  pose proof (Nat.mod_upper_bound (7 * i + 3) 16). lia.
Qed.

(** C10 on the sample draws. *)
Lemma generateSessionId_canonical_witness :
  unit_interval sample_random /\
  canonical_shape (fst (generateSessionId sample_random 0)) = true.
Proof.
  split; [exact sample_random_unit |].
  apply (generateSessionId_canonical sample_random 0 sample_random_unit).
Defined.

(** C1 fails after one input event on a fresh page: the state is ACTIVE, a
    timeout is pending, and five minutes later it fires in the ACTIVE state. *)
Lemma timer_armed_while_active :
  isActive (run [activity mousemove] fresh_manager) = true /\
  armed (run [activity mousemove] fresh_manager) = true /\
  isActive <$> timeout_fires 1 (elapse INACTIVITY_TIMEOUT
                                  (run [activity mousemove] fresh_manager))
    = Some true.
Proof. vm_compute. done. Qed.

(** Once the timeout armed by a blur has fired, the state is still PAUSED and
    no timeout is pending, while the manager still holds the spent handle. *)
Example paused_after_timeout_fired :
  (fun s => (isActive s, armed s, inactivityTimer s)) <$>
    timeout_fires 1 (elapse INACTIVITY_TIMEOUT (run [blur] fresh_manager))
  = Some (false, false, Some 1%positive).
Proof. vm_compute. reflexivity. Qed.

(** C5 on a sample sequence. *)
Lemma active_iff_last_transition_resumes_witness :
  isActive (run [blur; activity scroll; visibilitychange false; activity keypress]
              (new_SessionManager sample_random ∅ 0)) = true.
Proof.
  apply (proj2 (active_iff_last_transition_resumes sample_random ∅ 0
                  [blur; activity scroll; visibilitychange false; activity keypress])).
  right; right. reflexivity.
Defined.

(** C6 on a page that holds S1, ACTIVE and then PAUSED. *)
Lemma input_resets_timer_witness :
  (isActive manager_S1 = true /\
   isActive (dispatch (activity keypress) manager_S1) = true /\
   exists h, inactivityTimer (dispatch (activity keypress) manager_S1) = Some h /\
     remaining h (dispatch (activity keypress) manager_S1) = Some (5 * 60 * 1000)) /\
  (isActive (dispatch blur manager_S1) = false /\
   dispatch (activity keypress) (dispatch blur manager_S1) = dispatch blur manager_S1).
Proof.
  split; (split; [vm_compute; reflexivity |]).
  - apply (proj1 (input_resets_timer_only_while_active keypress manager_S1)).
    vm_compute. reflexivity.
  - apply (proj2 (proj2 (input_resets_timer_only_while_active keypress
                           (dispatch blur manager_S1)))).
    vm_compute. reflexivity.
Defined.

(** C2 fails on a paused page: after a cleanup whose request succeeded, the
    timeout armed by the blur is still pending, and it is due five minutes
    later. *)
Lemma cleanup_leaves_timer_armed :
  armed (cleanupSession (http 200 "OK") (dispatch blur manager_S1)) = true /\
  due 1 (elapse INACTIVITY_TIMEOUT
           (cleanupSession (http 200 "OK") (dispatch blur manager_S1))) = true.
Proof. vm_compute. done. Qed.

(** What the timeout left pending does next: after a blur and a manual
    cleanup, it fires on the new session and asks for its deletion. *)
Example stale_timeout_deletes_new_session :
  (fun s => (sessionId s, last (requests s))) <$>
    timeout_fires 1 (elapse INACTIVITY_TIMEOUT
      (manualCleanup sample_random (http 200 "OK") (dispatch blur manager_S1)))
  = Some (Some "3a18f6d4-b290-47e5-83a1-8f6d4b2907e5",
          Some (delete_request (Some "3a18f6d4-b290-47e5-83a1-8f6d4b2907e5"))).
Proof. vm_compute. reflexivity. Qed.

(** C3 on a page that holds S1: a status 500 and a rejection leave the
    identifier and the storage, a status 204 clears both. *)
Lemma cleanupSession_clears_only_on_success_witness :
  (sessionId (cleanupSession (http 500 "Internal Server Error") manager_S1) = Some "S1" /\
   sessionStorage (cleanupSession (http 500 "Internal Server Error") manager_S1)
     = sessionStorage manager_S1) /\
  (sessionId (cleanupSession (@Rejected unit (Error "Failed to fetch")) manager_S1)
     = sessionId manager_S1 /\
   sessionStorage (cleanupSession (@Rejected unit (Error "Failed to fetch")) manager_S1)
     = sessionStorage manager_S1) /\
  (sessionId (cleanupSession (http 204 "No Content") manager_S1) = None /\
   sessionStorage (cleanupSession (http 204 "No Content") manager_S1) !! storage_key
     = None).
Proof.
  split; [| split].
  - apply (proj1 (cleanupSession_clears_only_on_success
                    (http 500 "Internal Server Error") manager_S1)).
    reflexivity.
  - apply (proj1 (cleanupSession_clears_only_on_success
                    (@Rejected unit (Error "Failed to fetch")) manager_S1)).
    reflexivity.
  - apply (proj1 (proj2 (proj2 (cleanupSession_clears_only_on_success
                                  (http 204 "No Content") manager_S1))));
      reflexivity.
Defined.

(** The scenario of a manual cleanup whose delete request fails: the new
    identifier is held and stored, and the notification is the last effect. *)
Example manualCleanup_after_failed_delete :
  (fun s => (sessionId s, sessionStorage s !! storage_key, last (effects s)))
    (manualCleanup sample_random (http 500 "Internal Server Error") manager_S1)
  = (Some "3a18f6d4-b290-47e5-83a1-8f6d4b2907e5",
     Some "3a18f6d4-b290-47e5-83a1-8f6d4b2907e5",
     Some (DispatchEvent "sessionChanged"
             (Some "3a18f6d4-b290-47e5-83a1-8f6d4b2907e5"))).
Proof. vm_compute. reflexivity. Qed.

(** C7 fails when the first delete request fails: the second call is not a
    no-op, and two delete requests have been issued. *)
Lemma second_cleanup_after_failure_not_noop :
  requests (cleanupSession (http 200 "OK")
              (cleanupSession (http 500 "Internal Server Error") manager_S1))
    = [delete_request (Some "S1"); delete_request (Some "S1")] /\
  cleanupSession (http 200 "OK")
    (cleanupSession (http 500 "Internal Server Error") manager_S1)
    <> cleanupSession (http 500 "Internal Server Error") manager_S1.
Proof.
  split; [vm_compute; reflexivity |].
  intros H. apply (f_equal sessionId) in H. vm_compute in H. discriminate.
Qed.

(** C7 as amended, on a page whose identifier has been cleared and on one
    that holds S1. *)
Lemma cleanupSession_twice_witness :
  (cleanupSession (http 200 "OK") (cleanupSession (http 204 "No Content") manager_S1)
   = cleanupSession (http 204 "No Content") manager_S1) /\
  (cleanupSession (http 200 "OK") (cleanupSession (http 200 "OK") manager_S1)
   = cleanupSession (http 200 "OK") manager_S1 /\
   requests (cleanupSession (http 200 "OK") (cleanupSession (http 200 "OK") manager_S1))
   = requests manager_S1 ++ [delete_request (Some "S1")]) /\
  requests (cleanupSession (http 200 "OK")
              (cleanupSession (http 503 "Service Unavailable") manager_S1))
  = requests manager_S1 ++ [delete_request (Some "S1"); delete_request (Some "S1")].
Proof.
  split; [| split].
  - apply (proj1 (cleanupSession_twice (http 200 "OK") (http 200 "OK")
                    (cleanupSession (http 204 "No Content") manager_S1)) eq_refl).
  - apply (proj1 (proj2 (cleanupSession_twice (http 200 "OK") (http 200 "OK")
                           manager_S1)) eq_refl).
  - apply (proj2 (proj2 (cleanupSession_twice (http 503 "Service Unavailable")
                           (http 200 "OK") manager_S1)) eq_refl eq_refl).
Defined.

(** C8 fails on an identifier that is not null but empty: [sendMessage]
    throws the no-active-session error and issues no request. *)
Lemma sendMessage_empty_identifier :
  sessionId manager_empty_id = Some "" /\
  sendMessage "What was the revenue?"
    (Fulfilled (Response 200 "OK" (inr "42"))) manager_empty_id
  = (manager_empty_id, Throw no_session).
Proof. vm_compute. done. Qed.

(** C8 as amended, on a page whose identifier has been cleared and on one
    that holds S1. *)
Lemma sendMessage_needs_session_witness :
  sendMessage "What was the revenue?" (Fulfilled (Response 200 "OK" (inr "42")))
    (cleanupSession (http 204 "No Content") manager_S1)
  = (cleanupSession (http 204 "No Content") manager_S1, Throw no_session) /\
  requests (fst (sendMessage "What was the revenue?"
                   (Fulfilled (Response 200 "OK" (inr "42"))) manager_S1))
  = requests manager_S1 ++ [chat_request "What was the revenue?" (Some "S1")] /\
  snd (sendMessage "What was the revenue?"
         (Fulfilled (Response 200 "OK" (inr "42"))) manager_S1) = Return "42" /\
  snd (sendMessage "What was the revenue?"
         (Fulfilled (Response 500 "Internal Server Error" (inr "42"))) manager_S1)
  = Throw (Error "Chat failed: Internal Server Error") /\
  snd (sendMessage "What was the revenue?"
         (@Rejected string (Error "Failed to fetch")) manager_S1)
  = Throw (Error "Failed to fetch").
Proof.
  split; [| split; [| split; [| split]]].
  - apply (proj1 (sendMessage_needs_session "What was the revenue?"
                    (Fulfilled (Response 200 "OK" (inr "42")))
                    (cleanupSession (http 204 "No Content") manager_S1))).
    left. reflexivity.
  - destruct (proj2 (sendMessage_needs_session "What was the revenue?"
                       (Fulfilled (Response 200 "OK" (inr "42"))) manager_S1)
                "S1" eq_refl ltac:(discriminate)) as (Hreq & _).
    exact Hreq.
  - destruct (proj2 (sendMessage_needs_session "What was the revenue?"
                       (Fulfilled (Response 200 "OK" (inr "42"))) manager_S1)
                "S1" eq_refl ltac:(discriminate)) as (_ & Hok & _).
    exact (Hok _ _ eq_refl eq_refl eq_refl).
  - destruct (proj2 (sendMessage_needs_session "What was the revenue?"
                       (Fulfilled (Response 500 "Internal Server Error" (inr "42")))
                       manager_S1)
                "S1" eq_refl ltac:(discriminate)) as (_ & _ & Hstatus & _).
    exact (Hstatus _ eq_refl eq_refl).
  - destruct (proj2 (sendMessage_needs_session "What was the revenue?"
                       (@Rejected string (Error "Failed to fetch")) manager_S1)
                "S1" eq_refl ltac:(discriminate)) as (_ & _ & _ & Hrej).
    exact (Hrej _ eq_refl).
Defined.

(** C9 fails when the server answers the upload with an empty [session_id]:
    the identifier is overwritten and stored, and the [sendMessage] that
    follows throws without a request, so that the upload request remains the
    only one issued. *)
Lemma sendMessage_after_empty_upload_carries_nothing :
  sessionId manager_S1 = Some "S1" /\
  sessionId manager_empty_id = Some "" /\
  sessionStorage manager_empty_id !! storage_key = Some "" /\
  requests (fst (sendMessage "What was the revenue?"
                   (Fulfilled (Response 200 "OK" (inr "42"))) manager_empty_id))
  = [upload_request ["report.pdf"]] /\
  snd (sendMessage "What was the revenue?"
         (Fulfilled (Response 200 "OK" (inr "42"))) manager_empty_id)
  = Throw no_session.
Proof. vm_compute. done. Qed.

(** C9 on the scenario of the specification: the page holds S1, the upload
    returns S2, and the chat request that follows carries S2. *)
Lemma uploadFiles_adopts_session_id_witness :
  sessionId manager_S1 = Some "S1" /\
  sessionId (fst (uploadFiles ["report.pdf"]
                    (Fulfilled (Response 200 "OK" (inr (UploadResult "S2" []))))
                    manager_S1)) = Some "S2" /\
  sessionStorage (fst (uploadFiles ["report.pdf"]
                         (Fulfilled (Response 200 "OK" (inr (UploadResult "S2" []))))
                         manager_S1)) !! storage_key = Some "S2" /\
  last (requests (fst (sendMessage "What was the revenue?"
                         (Fulfilled (Response 200 "OK" (inr "42")))
                         (fst (uploadFiles ["report.pdf"]
                                 (Fulfilled (Response 200 "OK"
                                               (inr (UploadResult "S2" []))))
                                 manager_S1)))))
  = Some (chat_request "What was the revenue?" (Some "S2")).
Proof.
  split; [reflexivity |].
  destruct (uploadFiles_adopts_session_id ["report.pdf"]
              (Response 200 "OK" (inr (UploadResult "S2" []))) (UploadResult "S2" [])
              manager_S1 eq_refl eq_refl) as (_ & Hid & Hstored & Hchat).
  split; [exact Hid |]. split; [exact Hstored |].
  rewrite (Hchat string "What was the revenue?"
             (Fulfilled (Response 200 "OK" (inr "42"))) _ eq_refl).
  apply last_snoc.
Defined.

(** ** Construction *)

Section Construction.

Variable random : nat -> Q.

Lemma append_empty (a b : string) : a +:+ b = "" -> b = "".
Proof. destruct a; [done |]. unfold String.append. discriminate. Qed.

(** Every character of a template that yields the empty string is an x or
    a y. *)
Lemma replace_xy_empty template draws :
  fst (replace_xy random template draws) = "" ->
  placeholders template = String.length template.
Proof.
  revert draws. induction template as [| c template IH]; intros draws; [done |].
  simpl. destruct (Ascii.eqb c "x" || Ascii.eqb c "y").
  - specialize (IH (S draws)).
    destruct (replace_xy random template (S draws)) as [out n]. simpl in *.
    intros H%append_empty. by rewrite IH.
  - destruct (replace_xy random template draws) as [out n]. simpl. discriminate.
Qed.

Lemma generateSessionId_nonempty draws :
  truthy (Some (fst (generateSessionId random draws))) = true.
Proof.
  unfold truthy.
  destruct (String.eqb_spec (fst (generateSessionId random draws)) "") as [H |];
    [| done].
  unfold generateSessionId in H. apply replace_xy_empty in H.
  vm_compute in H. discriminate.
Qed.

Lemma new_SessionManager_cases storage now :
  (truthy (storage !! storage_key) = true /\
   new_SessionManager random storage now =
     mkState (storage !! storage_key) true None storage now ∅ 1%positive 0%nat
       [ConsoleLog "Session Manager initialized with session ID:"
          (storage !! storage_key)]) \/
  (truthy (storage !! storage_key) = false /\
   new_SessionManager random storage now =
     mkState (Some (fst (generateSessionId random 0))) true None
       (<[storage_key := fst (generateSessionId random 0)]> storage) now ∅
       1%positive (snd (generateSessionId random 0))
       [ConsoleLog "Session Manager initialized with session ID:"
          (Some (fst (generateSessionId random 0)))]).
Proof.
  unfold new_SessionManager, init, getOrCreateSessionId, getItem. simpl.
  destruct (truthy (storage !! storage_key)); [left | right]; split; done.
Qed.

(** X1. A manager constructed in a page whose session storage holds a
    non-empty identifier holds that identifier: the storage is left as it
    is, no number is drawn and no request is sent. *)
Theorem new_SessionManager_reuses_stored storage now id :
  storage !! storage_key = Some id -> id <> "" ->
  sessionId (new_SessionManager random storage now) = Some id /\
  sessionStorage (new_SessionManager random storage now) = storage /\
  draws (new_SessionManager random storage now) = 0%nat /\
  requests (new_SessionManager random storage now) = [].
Proof.
  intros Hid Hne.
  destruct (new_SessionManager_cases storage now) as [[_ ->] | [Ht _]].
  - by rewrite Hid.
  - rewrite Hid in Ht. simpl in Ht. apply String.eqb_neq in Hne.
    rewrite Hne in Ht. discriminate.
Qed.

(** X2. A manager constructed in a page whose session storage has no
    identifier, or an empty one, generates an identifier from 31 draws,
    holds it and stores it, leaving the other keys of the storage; the
    identifier has the canonical shape when the draws are in [0, 1). *)
Theorem new_SessionManager_generates storage now :
  storage !! storage_key = None \/ storage !! storage_key = Some "" ->
  sessionId (new_SessionManager random storage now) =
    Some (fst (generateSessionId random 0)) /\
  sessionStorage (new_SessionManager random storage now) =
    <[storage_key := fst (generateSessionId random 0)]> storage /\
  draws (new_SessionManager random storage now) = 31%nat /\
  (unit_interval random ->
   canonical_shape (fst (generateSessionId random 0)) = true).
Proof.
  intros Hid.
  destruct (new_SessionManager_cases storage now) as [[Ht _] | [_ ->]].
  - destruct Hid as [Hid | Hid]; rewrite Hid in Ht; discriminate.
  - cbn [sessionId sessionStorage draws]. split; [done | split; [done | split]].
    + unfold generateSessionId. by rewrite replace_xy_draws.
    + intros Hr. apply matches_canonical, replace_xy_matches, Hr.
Qed.

(** X4. A new manager always holds a non-empty identifier, which is the one
    in the session storage; it is ACTIVE, no timeout is pending and it has
    sent no request. *)
Theorem new_SessionManager_initial_state storage now :
  truthy (sessionId (new_SessionManager random storage now)) = true /\
  sessionStorage (new_SessionManager random storage now) !! storage_key
    = sessionId (new_SessionManager random storage now) /\
  isActive (new_SessionManager random storage now) = true /\
  inactivityTimer (new_SessionManager random storage now) = None /\
  timeouts (new_SessionManager random storage now) = ∅ /\
  requests (new_SessionManager random storage now) = [].
Proof.
  destruct (new_SessionManager_cases storage now) as [[Ht ->] | [_ ->]];
    cbn [sessionId sessionStorage isActive inactivityTimer timeouts].
  - done.
  - rewrite lookup_insert_eq. repeat split. apply generateSessionId_nonempty.
Qed.

End Construction.

(** X3. The identifier survives a reload: a second manager constructed on
    the session storage the first one left holds the same identifier and
    leaves the storage as it is, without drawing a number, whatever the
    storage the first one found. *)
Theorem new_SessionManager_round_trip random random' storage now now' :
  sessionId (new_SessionManager random'
               (sessionStorage (new_SessionManager random storage now)) now')
    = sessionId (new_SessionManager random storage now) /\
  sessionStorage (new_SessionManager random'
                    (sessionStorage (new_SessionManager random storage now)) now')
    = sessionStorage (new_SessionManager random storage now) /\
  draws (new_SessionManager random'
           (sessionStorage (new_SessionManager random storage now)) now') = 0%nat.
Proof.
  assert (Hheld : truthy (sessionStorage (new_SessionManager random storage now)
                            !! storage_key) = true /\
                  sessionStorage (new_SessionManager random storage now)
                    !! storage_key
                  = sessionId (new_SessionManager random storage now)).
  { destruct (new_SessionManager_cases random storage now) as [[Ht ->] | [_ ->]];
      cbn [sessionId sessionStorage].
    - done.
    - rewrite lookup_insert_eq. split; [apply generateSessionId_nonempty | done]. }
  destruct Hheld as [Ht Heq].
  destruct (new_SessionManager_cases random'
              (sessionStorage (new_SessionManager random storage now)) now')
    as [[_ ->] | [Hf _]]; [| congruence].
  simpl. done.
Qed.

(** ** The session under the activity signals *)

Lemma truthy_held v : truthy v = true -> exists id, v = Some id /\ id <> "".
Proof.
  destruct v as [id |]; [| discriminate]. simpl. intros H. exists id.
  split; [done |]. apply String.eqb_neq. by destruct (String.eqb id "").
Qed.

Lemma dispatch_frame e s :
  sessionId (dispatch e s) = sessionId s /\
  sessionStorage (dispatch e s) = sessionStorage s /\
  draws (dispatch e s) = draws s /\
  requests (dispatch e s) = requests s.
Proof.
  unfold dispatch, onActivityResume, onActivityPause, resetInactivityTimer,
    startInactivityTimer, clearInactivityTimer, setTimeout, clearTimeout, requests.
  destruct e as [| | [|] | k]; destruct (inactivityTimer s) eqn:E;
    try destruct (isActive s); simpl; rewrite ?E; simpl;
    rewrite ?omap_app, ?app_nil_r; done.
Qed.

(** X5. Focus, blur, visibility and input events, in any number and order,
    never change the identifier in memory or the session storage, draw no
    number and send no request. *)
Theorem signals_leave_session evs s :
  sessionId (run evs s) = sessionId s /\
  sessionStorage (run evs s) = sessionStorage s /\
  draws (run evs s) = draws s /\
  requests (run evs s) = requests s.
Proof.
  revert s. induction evs as [| e evs IH]; intros s; [done |].
  change (run (e :: evs) s) with (run evs (dispatch e s)).
  destruct (IH (dispatch e s)) as (-> & -> & -> & ->). apply dispatch_frame.
Qed.

(** ** The countdown *)

Lemma pause_timer s :
  one_timer s ->
  timeouts (onActivityPause s) = {[next_handle s := clock s + INACTIVITY_TIMEOUT]} /\
  inactivityTimer (onActivityPause s) = Some (next_handle s) /\
  clock (onActivityPause s) = clock s /\
  next_handle (onActivityPause s) = Pos.succ (next_handle s).
Proof.
  intros Hs. unfold onActivityPause, emit.
  cbn [timeouts inactivityTimer clock next_handle].
  assert (H1 : one_timer (with_isActive false s)) by (by eapply one_timer_frame).
  destruct (startInactivityTimer_pending _ H1) as [-> ->].
  destruct (startInactivityTimer_frame (with_isActive false s)) as (_ & _ & ->).
  repeat split.
  unfold startInactivityTimer, setTimeout. simpl.
  by destruct (clearInactivityTimer_frame (with_isActive false s)) as (_ & _ & _ & ->).
Qed.

(** X6. After a pause (blur, or the document hidden) in a state with at
    most one timeout pending, the only timeout that can ever fire is the one
    the pause armed, and it can fire once 5 minutes have passed and not
    before. *)
Theorem paused_timer_due_after_timeout s h ms :
  one_timer s ->
  (due h (elapse ms (onActivityPause s)) = true <->
   h = next_handle s /\ 5 * 60 * 1000 <= ms).
Proof.
  intros Hs. destruct (pause_timer s Hs) as (Ht & _ & Hc & _).
  unfold due, elapse. cbn [timeouts clock with_clock]. rewrite Ht, Hc.
  destruct (decide (h = next_handle s)) as [-> | Hne].
  - rewrite lookup_singleton_eq, Z.leb_le. unfold INACTIVITY_TIMEOUT. lia.
  - rewrite lookup_singleton_ne by done. split; [discriminate | tauto].
Qed.

(** X7. After a resume (focus, or the document shown) in a state with at
    most one timeout pending, no timeout can fire, however much time
    passes. *)
Theorem resumed_timer_never_due s h ms :
  one_timer s ->
  timeout_fires h (elapse ms (onActivityResume s)) = None.
Proof.
  intros Hs. unfold timeout_fires, due, elapse, onActivityResume, emit.
  cbn [timeouts with_clock].
  assert (H1 : one_timer (with_isActive true s)) by (by eapply one_timer_frame).
  destruct (clearInactivityTimer_pending _ H1) as [-> _].
  by rewrite lookup_empty.
Qed.

(** X8. A second pause restarts the countdown: when the page is paused, time
    passes and it is paused again, the only pending timeout is due 5 minutes
    after the second pause. *)
Theorem pause_restarts_countdown s ms :
  one_timer s -> 0 <= ms ->
  timeouts (onActivityPause (elapse ms (onActivityPause s))) =
    {[Pos.succ (next_handle s) := clock s + ms + 5 * 60 * 1000]}.
Proof.
  intros Hs Hms. destruct (pause_timer s Hs) as (Ht & Hh & Hc & Hn).
  assert (H1 : one_timer (elapse ms (onActivityPause s))).
  { eapply one_timer_frame; [| | apply (one_timer_dispatch blur s Hs)]; done. }
  destruct (pause_timer _ H1) as (-> & _).
  unfold elapse. cbn [next_handle clock with_clock]. rewrite Hn, Hc.
  rewrite Z.max_r by done. done.
Qed.

(** X9. A timeout fires once: when it fires it is no longer pending, so it
    cannot fire again; the firing leaves the activity state, the handle the
    manager holds, the identifier and the session storage as they are, and
    sends the delete request for the identifier held, or nothing when none
    is held. *)
Theorem timeout_fires_once h s s' :
  timeout_fires h s = Some s' ->
  timeout_fires h s' = None /\
  isActive s' = isActive s /\
  inactivityTimer s' = inactivityTimer s /\
  sessionId s' = sessionId s /\
  sessionStorage s' = sessionStorage s /\
  requests s' =
    requests s ++
    (if truthy (sessionId s) then [delete_request (sessionId s)] else []).
Proof.
  unfold timeout_fires. destruct (due h s); [| discriminate].
  intros [= <-]. unfold cleanupSession_call, fetch, due, requests.
  cbn [sessionId with_timeouts emit].
  destruct (truthy (sessionId s)); simpl;
    rewrite lookup_delete_eq, ?omap_app, ?app_nil_r; simpl;
    rewrite ?omap_app, ?app_nil_r; done.
Qed.

Lemma requests_cleared s :
  requests (with_sessionId None (removeItem storage_key s)) = requests s.
Proof. done. Qed.

(** X10. The hidden tab.  When a state that holds an identifier, with at
    most one timeout pending, is paused and at least 5 minutes pass, the
    timeout the pause armed fires and sends exactly one request, the delete
    request for the identifier; when that request succeeds, the identifier
    is cleared from memory and from the session storage. *)
Theorem hidden_tab_cleans_up {B} (o : fetch_outcome B) s ms :
  one_timer s -> truthy (sessionId s) = true -> 5 * 60 * 1000 <= ms ->
  failed o = false ->
  exists s', timeout_fires (next_handle s) (elapse ms (onActivityPause s)) = Some s' /\
    requests s' = requests s ++ [delete_request (sessionId s)] /\
    sessionId (cleanupSession_settle o s') = None /\
    sessionStorage (cleanupSession_settle o s') !! storage_key = None /\
    requests (cleanupSession_settle o s') = requests s'.
Proof.
  intros Hs Hid Hms Ho.
  assert (Hdue : due (next_handle s) (elapse ms (onActivityPause s)) = true).
  { destruct (pause_timer s Hs) as (Ht & _ & Hc & _).
    unfold due, elapse. cbn [timeouts clock with_clock]. rewrite Ht, Hc.
    rewrite lookup_singleton_eq, Z.leb_le. unfold INACTIVITY_TIMEOUT. lia. }
  unfold timeout_fires. rewrite Hdue. eexists. split; [done |].
  assert (Hsid : sessionId (elapse ms (onActivityPause s)) = sessionId s).
  { exact (proj1 (dispatch_frame blur s)). }
  assert (Hreq : requests (elapse ms (onActivityPause s)) = requests s).
  { exact (proj2 (proj2 (proj2 (dispatch_frame blur s)))). }
  set (p := elapse ms (onActivityPause s)) in *.
  unfold cleanupSession_call. cbn [sessionId with_timeouts emit].
  rewrite Hsid, Hid. cbn [negb].
  destruct o as [r | e]; [| discriminate]. simpl in Ho.
  unfold cleanupSession_settle. destruct (ok r); [| discriminate].
  unfold fetch. rewrite !requests_emit, !app_nil_r.
  cbn [sessionId sessionStorage with_sessionId removeItem with_sessionStorage emit].
  rewrite lookup_delete_eq.
  assert (Hp : requests (with_timeouts (delete (next_handle s) (timeouts p)) p)
               = requests s) by exact Hreq.
  rewrite Hp. repeat split.
  rewrite requests_cleared, !requests_emit, Hp. by rewrite !app_nil_r.
Qed.

(** ** What every step does to the session *)

Lemma timeout_fires_frame h s s' :
  timeout_fires h s = Some s' ->
  sessionId s' = sessionId s /\
  sessionStorage s' = sessionStorage s /\
  requests s' =
    requests s ++
    (if truthy (sessionId s) then [delete_request (sessionId s)] else []).
Proof.
  unfold timeout_fires. destruct (due h s); [| discriminate].
  intros [= <-]. unfold cleanupSession_call, fetch.
  cbn [sessionId with_timeouts emit].
  destruct (truthy (sessionId s)); cbn [negb];
    rewrite ?requests_emit, ?app_nil_r; done.
Qed.

Lemma new_SessionManager_stored random storage now :
  sessionStorage (new_SessionManager random storage now) !! storage_key
    = sessionId (new_SessionManager random storage now) /\
  requests (new_SessionManager random storage now) = [].
Proof.
  destruct (new_SessionManager_cases random storage now) as [[_ ->] | [_ ->]];
    cbn [sessionId sessionStorage]; [done |].
  by rewrite lookup_insert_eq.
Qed.

(** A step leaves the identifier and its slot in the session storage, or
    clears both, or sets both to the same identifier. *)
Lemma step_session random s s' :
  step random s s' ->
  (sessionId s' = sessionId s /\ sessionStorage s' = sessionStorage s) \/
  (sessionId s' = None /\
   sessionStorage s' = delete storage_key (sessionStorage s)) \/
  (exists id, sessionId s' = Some id /\
     sessionStorage s' = <[storage_key := id]> (sessionStorage s)).
Proof.
  intros [e s0 | ms s0 | h s0 s1 Hf | s0 | s0 | o s0 | s0 | o s0 | files o s0 | msg o s0].
  - left. by destruct (dispatch_frame e s0) as (-> & -> & _).
  - by left.
  - left. by destruct (timeout_fires_frame h s0 s1 Hf) as (-> & -> & _).
  - left. unfold beforeunload, cleanupSession_call. by destruct (truthy _).
  - left. unfold cleanupSession_call. by destruct (truthy _).
  - unfold cleanupSession_settle.
    destruct o as [r | e]; [destruct (ok r) |]; [right; left | left | left]; done.
  - right; right. unfold manualCleanup_resume.
    destruct (generateSessionId random (draws s0)) as [id n]. by exists id.
  - left. unfold getSessionInfo. destruct (truthy _); [| done].
    by destruct o as [r | e]; [destruct (ok r); [destruct (json r) |] |].
  - unfold uploadFiles.
    destruct o as [r | e]; [destruct (ok r); [destruct (json r) as [e | result] |] |];
      try (by left).
    right; right. by exists (session_id result).
  - left. unfold sendMessage. destruct (truthy _); [| done].
    by destruct o as [r | e]; [destruct (ok r); [destruct (json r) |] |].
Qed.


(** X12. The manager writes one key only: in every state reached from a
    page whose session storage was [storage], every other key has the value
    it had in [storage]. *)
Theorem other_keys_untouched random storage now s key :
  rtc (step random) (new_SessionManager random storage now) s ->
  key <> storage_key ->
  sessionStorage s !! key = storage !! key.
Proof.
  intros Hrun Hkey. revert s Hrun.
  apply (rtc_ind_r (fun s => sessionStorage s !! key = storage !! key)).
  - destruct (new_SessionManager_cases random storage now) as [[_ ->] | [_ ->]];
      cbn [sessionStorage]; [done |]. by rewrite lookup_insert_ne.
  - intros s1 s2 _ Hstep IH.
    destruct (step_session random s1 s2 Hstep)
      as [[_ ->] | [[_ ->] | (id & _ & ->)]].
    + exact IH.
    + by rewrite lookup_delete_ne.
    + by rewrite lookup_insert_ne.
Qed.

(** The requests a step sends. *)
Lemma step_requests random s s' :
  step random s s' ->
  exists sent, requests s' = requests s ++ sent /\ Forall sent_by_manager sent.
Proof.
  assert (Hcall : forall s0, exists sent,
            requests (cleanupSession_call s0) = requests s0 ++ sent /\
            Forall sent_by_manager sent).
  { intros s0. unfold cleanupSession_call.
    destruct (truthy (sessionId s0)) eqn:Hid; simpl.
    - destruct (truthy_held _ Hid) as (id & -> & Hne).
      exists [delete_request (Some id)]. split; [apply requests_emit |].
      constructor; [| done]. left. by exists id.
    - exists []. by rewrite app_nil_r. }
  intros [e s0 | ms s0 | h s0 s1 Hf | s0 | s0 | o s0 | s0 | o s0 | files o s0 | msg o s0].
  - exists []. rewrite app_nil_r. split; [| done].
    by destruct (dispatch_frame e s0) as (_ & _ & _ & ->).
  - exists []. by rewrite app_nil_r.
  - destruct (timeout_fires_frame h s0 s1 Hf) as (_ & _ & ->).
    destruct (truthy (sessionId s0)) eqn:Hid.
    + destruct (truthy_held _ Hid) as (id & -> & Hne).
      eexists. split; [done |]. constructor; [| done]. left. by exists id.
    + exists []. done.
  - apply Hcall.
  - apply Hcall.
  - exists []. rewrite app_nil_r. split; [| done]. unfold cleanupSession_settle.
    by destruct o as [r | e]; [destruct (ok r) |]; rewrite ?requests_cleared, requests_emit, app_nil_r.
  - exists []. rewrite app_nil_r. split; [| done]. unfold manualCleanup_resume.
    destruct (generateSessionId random (draws s0)) as [id n].
    unfold notifySessionChange. by rewrite !requests_emit, !app_nil_r.
  - unfold getSessionInfo. destruct (truthy (sessionId s0)) eqn:Hid; simpl.
    + destruct (truthy_held _ Hid) as (id & -> & Hne).
      exists [info_request (Some id)].
      split; [| constructor; [right; right; left; by exists id | done]].
      destruct o as [r | e]; [destruct (ok r); [destruct (json r) |] |];
        unfold fetch; cbn [fst]; rewrite !requests_emit; by rewrite ?app_nil_r.
    + exists []. by rewrite app_nil_r.
  - exists [upload_request files].
    split; [| constructor; [right; right; right; by exists files | done]].
    unfold uploadFiles.
    destruct o as [r | e]; [destruct (ok r); [destruct (json r) |] |];
      unfold fetch; cbn [fst]; rewrite ?requests_emit; try by rewrite ?app_nil_r.
    unfold requests. simpl. by rewrite !omap_app, !app_nil_r.
  - unfold sendMessage. destruct (truthy (sessionId s0)) eqn:Hid; simpl.
    + destruct (truthy_held _ Hid) as (id & -> & Hne).
      exists [chat_request msg (Some id)].
      split; [| constructor; [right; left; by exists msg, id | done]].
      destruct o as [r | e]; [destruct (ok r); [destruct (json r) |] |];
        unfold fetch; cbn [fst]; rewrite !requests_emit; by rewrite ?app_nil_r.
    + exists []. by rewrite app_nil_r.
Qed.

(** X13. Every request the page ever sends is a delete, a chat or an info
    request carrying a non-empty identifier, or an upload: the manager never
    asks the server to delete, query or chat under a null or empty
    identifier. *)
Theorem reachable_requests_carry_identifier random s :
  reachable random s -> Forall sent_by_manager (requests s).
Proof.
  intros (storage & now & Hrun). revert s Hrun.
  apply (rtc_ind_r (fun s => Forall sent_by_manager (requests s))).
  - by destruct (new_SessionManager_stored random storage now) as (_ & ->).
  - intros s1 s2 _ Hstep IH.
    destruct (step_requests random s1 s2 Hstep) as (sent & -> & Hsent).
    by apply Forall_app.
Qed.

(** ** The remote calls and the session *)

(** X14. [getSessionInfo] never throws.  It returns the parsed body exactly
    when an identifier is held, the status is in 200-299 and the body
    parses, and null in every other case; it sends one GET request for the
    identifier held, none when none is held, and leaves the identifier and
    the session storage as they are. *)
Theorem getSessionInfo_null_unless_success {B} (o : fetch_outcome B) s :
  (exists v, snd (getSessionInfo o s) = Return v) /\
  (forall v, snd (getSessionInfo o s) = Return (Some v) <->
     truthy (sessionId s) = true /\
     exists r, o = Fulfilled r /\ ok r = true /\ json r = inr v) /\
  requests (fst (getSessionInfo o s)) =
    requests s ++
    (if truthy (sessionId s) then [info_request (sessionId s)] else []) /\
  sessionId (fst (getSessionInfo o s)) = sessionId s /\
  sessionStorage (fst (getSessionInfo o s)) = sessionStorage s.
Proof.
  unfold getSessionInfo, fetch.
  destruct (truthy (sessionId s)); cbn [negb].
  - destruct o as [r | e]; [destruct (ok r) eqn:Hok; [destruct (json r) as [e | v'] eqn:Hj |] |];
      cbn [fst snd]; rewrite ?requests_emit, ?app_nil_r;
      (split; [eauto |]); (split; [| done]); intros v; split;
      try discriminate.
    + intros (_ & r' & [= <-] & _ & Hj'). congruence.
    + intros [= ->]. eauto.
    + intros (_ & r' & [= <-] & _ & Hj'). congruence.
    + intros (_ & r' & [= <-] & Hok' & _). congruence.
    + intros (_ & r' & ? & _). discriminate.
  - rewrite app_nil_r. cbn [fst snd]. split; [eauto |]. split; [| done].
    intros v. split; [discriminate | intros [? _]; discriminate].
Qed.

(** X15. [uploadFiles] has no guard: it sends its one request, with a files
    field for each file, whether or not an identifier is held.  When the
    upload fails (a status outside 200-299, a rejection, or a body that does
    not parse) it throws and the identifier and the session storage are
    left as they were; the error names the status text for a bad status and
    is the rejection itself for a rejected request. *)
Theorem uploadFiles_failure_keeps_session files (o : fetch_outcome upload_result) s :
  requests (fst (uploadFiles files o s)) = requests s ++ [upload_request files] /\
  (failed o = true \/ (exists r e, o = Fulfilled r /\ json r = inl e) ->
     sessionId (fst (uploadFiles files o s)) = sessionId s /\
     sessionStorage (fst (uploadFiles files o s)) = sessionStorage s /\
     exists e, snd (uploadFiles files o s) = Throw e) /\
  (forall r, o = Fulfilled r -> ok r = false ->
     snd (uploadFiles files o s) = Throw (Error ("Upload failed: " +:+ statusText r))) /\
  (forall e, o = Rejected e -> snd (uploadFiles files o s) = Throw e).
Proof.
  unfold uploadFiles, fetch. split; [| split; [| split]].
  - destruct o as [r | e]; [destruct (ok r); [destruct (json r) |] |];
      cbn [fst]; rewrite ?requests_emit, ?app_nil_r; try done.
    apply (requests_emit (Fetch (upload_request files)) s).
  - intros [Hf | (r & e & -> & Hj)].
    + destruct o as [r | e]; simpl in Hf; [destruct (ok r); [discriminate |] |];
        cbn [fst snd]; eauto.
    + rewrite Hj. destruct (ok r); cbn [fst snd]; eauto.
  - intros r -> ->. done.
  - intros e ->. done.
Qed.

(** X16. After a cleanup whose request succeeded, [sendMessage] throws the
    no-active-session error and sends nothing, until an upload or a manual
    cleanup gives the manager an identifier again. *)
Theorem sendMessage_after_cleanup {B C} (o : fetch_outcome B) (o' : fetch_outcome C)
    (msg : string) s :
  failed o = false ->
  sendMessage msg o' (cleanupSession o s) = (cleanupSession o s, Throw no_session).
Proof.
  intros Ho.
  assert (H : truthy (sessionId (cleanupSession o s)) = false).
  { destruct (truthy (sessionId s)) eqn:Hid.
    - by destruct (cleanupSession_succeeded o s Ho Hid) as [-> _].
    - by rewrite (cleanupSession_nothing_held o s Hid). }
  unfold sendMessage. by rewrite H.
Qed.

Lemma manualCleanup_resume_sessionId random s :
  sessionId (manualCleanup_resume random s) =
    Some (fst (generateSessionId random (draws s))).
Proof.
  unfold manualCleanup_resume. by destruct (generateSessionId random (draws s)).
Qed.

(** X17. After a manual cleanup, whatever the outcome of its delete request,
    the manager holds a non-empty identifier and [sendMessage] sends its
    request with that identifier. *)
Theorem sendMessage_after_manualCleanup {B C} random (o : fetch_outcome B)
    (o' : fetch_outcome C) (msg : string) s :
  truthy (sessionId (manualCleanup random o s)) = true /\
  requests (fst (sendMessage msg o' (manualCleanup random o s))) =
    requests (manualCleanup random o s) ++
    [chat_request msg (sessionId (manualCleanup random o s))].
Proof.
  assert (H : truthy (sessionId (manualCleanup random o s)) = true).
  { unfold manualCleanup. rewrite manualCleanup_resume_sessionId.
    apply generateSessionId_nonempty. }
  split; [exact H |]. unfold sendMessage, fetch. rewrite H. cbn [negb].
  destruct o' as [r | e]; [destruct (ok r); [destruct (json r) |] |];
    cbn [fst]; rewrite !requests_emit; by rewrite ?app_nil_r.
Qed.

(** ** The nibbles of an identifier *)

(** X18. The variant nibble does not depend on the range of [Math.random]:
    for every number drawn, the callback replaces a y by one character, one
    of 8, 9, a, b. *)
Theorem variant_for_any_draw (x : Q) :
  exists d, replacement "y" x = String d EmptyString /\ variant_nibble d = true.
Proof.
  unfold replacement. cbn [Ascii.eqb Bool.eqb].
  set (r := Z.lor (ToInt32 (x * 16)%Q) 0).
  assert (Hv : 8 <= Z.lor (Z.land r 3) 8 < 12).
  { change 3 with (Z.ones 2). rewrite Z.land_ones by lia.
    pose proof (Z.mod_pos_bound r (2 ^ 2) ltac:(lia)) as Hm.
    assert (Hc : In (r mod 2 ^ 2) [0; 1; 2; 3]) by (simpl; lia).
    simpl in Hc.
    repeat (destruct Hc as [Hc | Hc];
            [rewrite <- Hc; split; [apply Z.leb_le | apply Z.ltb_lt]; reflexivity |]).
    destruct Hc. }
  eexists. split; [apply toString16_digit; lia | by apply hex_digit_variant].
Qed.

Lemma nibble_value_digit v : 0 <= v < 16 -> nibble_value (hex_digit v) = v.
Proof.
  intros Hv. apply small_cases in Hv. simpl in Hv.
  repeat (destruct Hv as [Hv | Hv]; [subst v; reflexivity |]). destruct Hv.
Qed.

(** The identifier shows, at each x and y, the number the callback
    computed. *)
Lemma read_nibbles_replace random template draws :
  unit_interval random ->
  read_nibbles template (fst (replace_xy random template draws)) =
    drawn_nibbles random template draws.
Proof.
  intros Hr. revert draws.
  induction template as [| t template IH]; intros draws; [done |].
  cbn [replace_xy drawn_nibbles].
  destruct (Ascii.eqb t "x" || Ascii.eqb t "y") eqn:Hp.
  - specialize (IH (S draws)).
    destruct (replace_xy random template (S draws)) as [out n]. cbn [fst] in *.
    destruct (Hr draws) as [H0 H1].
    pose proof (nibble_range _ H0 H1) as Hrange.
    unfold replacement.
    set (r := Z.lor (ToInt32 (random draws * 16)%Q) 0) in *.
    assert (Hv : 0 <= (if Ascii.eqb t "x" then r else Z.lor (Z.land r 3) 8) < 16).
    { destruct (Ascii.eqb t "x"); [done |]. pose proof (variant_range r Hrange). lia. }
    rewrite (toString16_digit _ Hv).
    change (String ?c "" +:+ out) with (String c out).
    cbn [read_nibbles]. rewrite Hp, IH. f_equal. by apply nibble_value_digit.
  - specialize (IH draws).
    destruct (replace_xy random template draws) as [out n]. cbn [fst] in *.
    cbn [read_nibbles]. by rewrite Hp.
Qed.

(** X19. Two identifiers are equal only if the 31 numbers their callbacks
    computed are equal, one by one: when the draws are in [0, 1), the
    identifier loses nothing of the 30 hexadecimal digits and of the variant
    digit that were drawn. *)
Theorem equal_identifiers_equal_draws random1 random2 draws1 draws2 :
  unit_interval random1 -> unit_interval random2 ->
  fst (generateSessionId random1 draws1) = fst (generateSessionId random2 draws2) ->
  drawn_nibbles random1 uuid_template draws1 =
    drawn_nibbles random2 uuid_template draws2.
Proof.
  intros H1 H2 Heq. unfold generateSessionId in Heq.
  rewrite <- (read_nibbles_replace random1 uuid_template draws1 H1).
  rewrite <- (read_nibbles_replace random2 uuid_template draws2 H2).
  by rewrite Heq.
Qed.

(** ** Cleanup and the pending timeout *)

Lemma cleanupSession_timer_frame {B} (o : fetch_outcome B) s :
  timeouts (cleanupSession o s) = timeouts s /\
  clock (cleanupSession o s) = clock s /\
  isActive (cleanupSession o s) = isActive s.
Proof.
  unfold cleanupSession, cleanupSession_call, cleanupSession_settle.
  destruct (truthy (sessionId s)); [| done].
  by destruct o as [r | e]; [destruct (ok r) |].
Qed.

Lemma manualCleanup_timer_frame {B} random (o : fetch_outcome B) s :
  timeouts (manualCleanup random o s) = timeouts s /\
  clock (manualCleanup random o s) = clock s /\
  isActive (manualCleanup random o s) = isActive s.
Proof.
  destruct (cleanupSession_timer_frame o s) as (Ht & Hc & Ha).
  unfold manualCleanup, manualCleanup_resume.
  destruct (generateSessionId random (draws (cleanupSession o s))). done.
Qed.

Lemma elapse_frame ms s :
  sessionId (elapse ms s) = sessionId s /\ requests (elapse ms s) = requests s.
Proof. done. Qed.

Lemma elapse_timer ms s h :
  match timeouts (elapse ms s) !! h with
  | Some deadline => deadline <=? clock (elapse ms s)
  | None => false
  end =
  match timeouts s !! h with
  | Some deadline => deadline <=? clock s + Z.max 0 ms
  | None => false
  end.
Proof. done. Qed.

Lemma manualCleanup_sessionId {B} random (o : fetch_outcome B) s :
  sessionId (manualCleanup random o s) =
    Some (fst (generateSessionId random (draws (cleanupSession o s)))).
Proof. unfold manualCleanup. apply manualCleanup_resume_sessionId. Qed.

(** A due timeout fires, and asks for the deletion of the session held. *)
Lemma due_fires h s :
  due h s = true -> truthy (sessionId s) = true ->
  exists s', timeout_fires h s = Some s' /\
    requests s' = requests s ++ [delete_request (sessionId s)].
Proof.
  intros Hdue Hid. unfold timeout_fires. rewrite Hdue. eexists. split; [done |].
  unfold cleanupSession_call, fetch. cbn [sessionId with_timeouts emit].
  rewrite Hid. cbn [negb]. rewrite !requests_emit, app_nil_r. done.
Qed.

(** X20. A manual cleanup does not disarm the timer, and the timer does not
    remember a session: when a page with at most one timeout pending is
    paused, a manual cleanup renews the session, and 5 minutes pass since the
    pause, the timeout armed by the pause fires and sends the delete request
    for the identifier the manual cleanup generated. *)
Theorem stale_timer_deletes_renewed_session {B} random (o : fetch_outcome B) s ms :
  one_timer s -> 5 * 60 * 1000 <= ms ->
  exists s',
    timeout_fires (next_handle s)
      (elapse ms (manualCleanup random o (onActivityPause s))) = Some s' /\
    sessionId (manualCleanup random o (onActivityPause s)) =
      Some (fst (generateSessionId random
                   (draws (cleanupSession o (onActivityPause s))))) /\
    requests s' =
      requests (manualCleanup random o (onActivityPause s)) ++
      [delete_request (sessionId (manualCleanup random o (onActivityPause s)))].
Proof.
  intros Hs Hms.
  destruct (pause_timer s Hs) as (Ht & _ & Hc & _).
  destruct (manualCleanup_timer_frame random o (onActivityPause s)) as (Ht' & Hc' & _).
  pose proof (manualCleanup_sessionId random o (onActivityPause s)) as Hid.
  assert (Hheld : truthy (sessionId (elapse ms (manualCleanup random o
                                                  (onActivityPause s)))) = true).
  { rewrite (proj1 (elapse_frame ms _)), Hid. apply generateSessionId_nonempty. }
  assert (Hdue : due (next_handle s)
                   (elapse ms (manualCleanup random o (onActivityPause s))) = true).
  { unfold due. rewrite elapse_timer, Ht', Hc', Ht, Hc.
    rewrite lookup_singleton_eq, Z.leb_le. unfold INACTIVITY_TIMEOUT. lia. }
  destruct (due_fires _ _ Hdue Hheld) as (s' & Hf & Hreq).
  exists s'. split; [exact Hf |]. split; [exact Hid |].
  rewrite Hreq, (proj1 (elapse_frame ms _)), (proj2 (elapse_frame ms _)).
  reflexivity.
Qed.

(** X21. Only the signals move the activity state: a step of the page that
    changes it is the delivery of a focus, blur or visibility event; time
    passing, a timeout firing, the unload, a cleanup and its settling, a
    manual cleanup, an upload, a chat message and an info query leave it as
    it is. *)
Theorem only_signals_change_activity random s s' :
  step random s s' ->
  isActive s' <> isActive s ->
  exists e, is_transition e = true /\ s' = dispatch e s.
Proof.
  intros Hstep Hchange.
  destruct Hstep
    as [e s | ms s | h s s' Hf | s | s | o s | s | o s | files o s | msg o s].
  - exists e. split; [| done].
    destruct e as [| | hidden | k]; try done.
    exfalso. apply Hchange. rewrite isActive_dispatch. done.
  - by destruct Hchange.
  - exfalso. apply Hchange. unfold timeout_fires in Hf.
    destruct (due h s); [| discriminate]. injection Hf as <-.
    unfold cleanupSession_call. by destruct (truthy _).
  - exfalso. apply Hchange. unfold beforeunload, cleanupSession_call.
    by destruct (truthy _).
  - exfalso. apply Hchange. unfold cleanupSession_call. by destruct (truthy _).
  - exfalso. apply Hchange. unfold cleanupSession_settle.
    by destruct o as [r | e]; [destruct (ok r) |].
  - exfalso. apply Hchange. unfold manualCleanup_resume.
    by destruct (generateSessionId random (draws s)).
  - exfalso. apply Hchange. unfold getSessionInfo. destruct (truthy _); [| done].
    by destruct o as [r | e]; [destruct (ok r); [destruct (json r) |] |].
  - exfalso. apply Hchange. unfold uploadFiles.
    by destruct o as [r | e]; [destruct (ok r); [destruct (json r) |] |].
  - exfalso. apply Hchange. unfold sendMessage. destruct (truthy _); [| done].
    by destruct o as [r | e]; [destruct (ok r); [destruct (json r) |] |].
Qed.

(** ** The further properties on concrete pages *)

Lemma one_timer_S1 : one_timer manager_S1.
Proof. apply one_timer_new. Qed.

Lemma sample_random_shifted_unit : unit_interval sample_random_shifted.
Proof.
  intros i. unfold sample_random_shifted, Qle, Qlt. simpl.
  pose proof (Nat.mod_upper_bound (7 * i + 3) 16). lia.
Qed.

Lemma closing_page_run :
  rtc (step sample_random) (new_SessionManager sample_random themed_storage 0)
    closing_page.
Proof.
  eapply rtc_l; [apply step_beforeunload |].
  eapply rtc_l; [apply (step_cleanup_settle _ (http 204 "No Content")) |].
  apply rtc_refl.
Qed.

Lemma closing_page_reachable : reachable sample_random closing_page.
Proof. exists themed_storage, 0. apply closing_page_run. Qed.

Lemma new_SessionManager_reuses_stored_witness :
  sessionId (new_SessionManager sample_random themed_storage 0) = Some "S1" /\
  sessionStorage (new_SessionManager sample_random themed_storage 0) = themed_storage /\
  draws (new_SessionManager sample_random themed_storage 0) = 0%nat /\
  requests (new_SessionManager sample_random themed_storage 0) = [].
Proof.
  apply (new_SessionManager_reuses_stored sample_random themed_storage 0 "S1");
    [reflexivity | discriminate].
Defined.

Lemma new_SessionManager_generates_witness :
  sessionId (new_SessionManager sample_random {["theme" := "dark"]} 0)
    = Some (fst (generateSessionId sample_random 0)) /\
  canonical_shape (fst (generateSessionId sample_random 0)) = true.
Proof.
  destruct (new_SessionManager_generates sample_random {["theme" := "dark"]} 0
              ltac:(left; reflexivity)) as (Hid & _ & _ & Hshape).
  split; [exact Hid | exact (Hshape sample_random_unit)].
Defined.

Lemma paused_timer_due_after_timeout_witness :
  due 1 (elapse 300000 (onActivityPause manager_S1)) = true /\
  (due 1 (elapse 299999 (onActivityPause manager_S1)) = true -> False).
Proof.
  split.
  - apply (proj2 (paused_timer_due_after_timeout manager_S1 1 300000 one_timer_S1)).
    split; [reflexivity | lia].
  - intros H.
    apply (proj1 (paused_timer_due_after_timeout manager_S1 1 299999 one_timer_S1)) in H.
    lia.
Defined.

Lemma resumed_timer_never_due_witness :
  timeout_fires 1 (elapse 600000 (onActivityResume (dispatch blur manager_S1))) = None.
Proof.
  apply (resumed_timer_never_due (dispatch blur manager_S1) 1 600000).
  apply one_timer_dispatch, one_timer_S1.
Defined.

Lemma pause_restarts_countdown_witness :
  timeouts (onActivityPause (elapse 120000 (onActivityPause manager_S1))) =
    {[Pos.succ (next_handle manager_S1) := clock manager_S1 + 120000 + 5 * 60 * 1000]}.
Proof.
  apply (pause_restarts_countdown manager_S1 120000 one_timer_S1). lia.
Defined.

Lemma timeout_fires_once_witness :
  exists s', timeout_fires 1 (elapse 300000 (onActivityPause manager_S1)) = Some s' /\
    timeout_fires 1 s' = None.
Proof.
  destruct (timeout_fires 1 (elapse 300000 (onActivityPause manager_S1)))
    as [s' |] eqn:E; [| vm_compute in E; discriminate].
  exists s'. split; [reflexivity |].
  exact (proj1 (timeout_fires_once 1 _ s' E)).
Defined.

Lemma hidden_tab_cleans_up_witness :
  exists s', timeout_fires (next_handle manager_S1)
               (elapse 300000 (onActivityPause manager_S1)) = Some s' /\
    requests s' = requests manager_S1 ++ [delete_request (sessionId manager_S1)] /\
    sessionId (cleanupSession_settle (http 204 "No Content") s') = None /\
    sessionStorage (cleanupSession_settle (http 204 "No Content") s') !! storage_key
      = None /\
    requests (cleanupSession_settle (http 204 "No Content") s') = requests s'.
Proof.
  apply (hidden_tab_cleans_up (http 204 "No Content") manager_S1 300000 one_timer_S1);
    [reflexivity | lia | reflexivity].
Defined.

Lemma reachable_one_timer_witness : one_timer closing_page.
Proof. exact (reachable_one_timer sample_random closing_page closing_page_reachable). Defined.


Lemma other_keys_untouched_witness :
  sessionStorage closing_page !! "theme" = themed_storage !! "theme".
Proof.
  apply (other_keys_untouched sample_random themed_storage 0 closing_page "theme"
           closing_page_run).
  discriminate.
Defined.

Lemma reachable_requests_carry_identifier_witness :
  Forall sent_by_manager (requests closing_page).
Proof.
  exact (reachable_requests_carry_identifier sample_random closing_page
           closing_page_reachable).
Defined.

Lemma uploadFiles_failure_keeps_session_witness :
  sessionId (fst (uploadFiles ["report.pdf"]
                    (Fulfilled (Response 413 "Payload Too Large"
                                  (inr (UploadResult "S2" [])))) manager_S1))
    = sessionId manager_S1 /\
  snd (uploadFiles ["report.pdf"]
         (Fulfilled (Response 413 "Payload Too Large" (inr (UploadResult "S2" []))))
         manager_S1)
    = Throw (Error "Upload failed: Payload Too Large").
Proof.
  destruct (uploadFiles_failure_keeps_session ["report.pdf"]
              (Fulfilled (Response 413 "Payload Too Large"
                            (inr (UploadResult "S2" [])))) manager_S1)
    as (_ & Hkeep & Hstatus & _).
  split.
  - exact (proj1 (Hkeep ltac:(left; reflexivity))).
  - exact (Hstatus _ eq_refl eq_refl).
Defined.

Lemma sendMessage_after_cleanup_witness :
  sendMessage "What was the revenue?" (Fulfilled (Response 200 "OK" (inr "42")))
    (cleanupSession (http 204 "No Content") manager_S1)
  = (cleanupSession (http 204 "No Content") manager_S1, Throw no_session).
Proof.
  apply (sendMessage_after_cleanup (http 204 "No Content")
           (Fulfilled (Response 200 "OK" (inr "42"))) "What was the revenue?"
           manager_S1).
  reflexivity.
Defined.

Lemma equal_identifiers_equal_draws_witness :
  fst (generateSessionId sample_random 0) = fst (generateSessionId sample_random_shifted 0) /\
  drawn_nibbles sample_random uuid_template 0 =
    drawn_nibbles sample_random_shifted uuid_template 0.
Proof.
  split; [vm_compute; reflexivity |].
  apply (equal_identifiers_equal_draws sample_random sample_random_shifted 0 0
           sample_random_unit sample_random_shifted_unit).
  vm_compute. reflexivity.
Defined.

Lemma stale_timer_deletes_renewed_session_witness :
  exists s',
    timeout_fires (next_handle manager_S1)
      (elapse 300000
         (manualCleanup sample_random (http 200 "OK") (onActivityPause manager_S1)))
      = Some s' /\
    sessionId (manualCleanup sample_random (http 200 "OK") (onActivityPause manager_S1))
      = Some (fst (generateSessionId sample_random
                     (draws (cleanupSession (http 200 "OK")
                               (onActivityPause manager_S1))))) /\
    requests s' =
      requests (manualCleanup sample_random (http 200 "OK") (onActivityPause manager_S1))
      ++ [delete_request
            (sessionId (manualCleanup sample_random (http 200 "OK")
                          (onActivityPause manager_S1)))].
Proof.
  apply (stale_timer_deletes_renewed_session sample_random (http 200 "OK")
           manager_S1 300000 one_timer_S1).
  lia.
Defined.

Lemma only_signals_change_activity_witness :
  exists e, is_transition e = true /\ dispatch blur manager_S1 = dispatch e manager_S1.
Proof.
  apply (only_signals_change_activity sample_random manager_S1
           (dispatch blur manager_S1) (step_signal sample_random blur manager_S1)).
  vm_compute. discriminate.
Defined.

Lemma getSessionInfo_null_unless_success_witness :
  snd (getSessionInfo (Fulfilled (Response 200 "OK" (inr "3 documents"))) manager_S1)
    = Return (Some "3 documents") /\
  (snd (getSessionInfo (Fulfilled (Response 404 "Not Found" (inr "3 documents")))
          manager_S1) = Return (Some "3 documents") -> False).
Proof.
  split.
  - apply (proj1 (proj2 (getSessionInfo_null_unless_success
                           (Fulfilled (Response 200 "OK" (inr "3 documents")))
                           manager_S1)) "3 documents").
    split; [reflexivity |]. eexists. repeat split.
  - intros H.
    apply (proj1 (proj2 (getSessionInfo_null_unless_success
                           (Fulfilled (Response 404 "Not Found" (inr "3 documents")))
                           manager_S1)) "3 documents") in H.
    destruct H as (_ & r & [= <-] & Hok & _). discriminate.
Defined.
